(** * musicbert_hf: the fine-tuning launcher, [training/finetune.py]

    A shallow embedding of the configuration dataclass [Config], of the
    command-line splitter [get_config_and_training_kwargs], of the dataset
    locator [get_dataset] and of the script body run under
    [if __name__ == "__main__"], followed by the properties stated about
    them.

    Conventions of the embedding.
    - Python values that can come out of the command line are values of
      [PyVal]: [None], booleans, integers, floats, strings, and flat lists
      of those.  A float is carried by its [repr]; no arithmetic is done on
      floats anywhere in the script.  Nested containers are not modelled.
    - A Python [str] is a Rocq [string]; iterating over one yields its
      characters.
    - [os.path] is [posixpath].
    - A computation that can raise returns a [Res]; the script body, which
      also changes [os.environ] and calls the imported collaborators, runs
      in the monad [Run] that threads a [World] and keeps it when an
      exception is raised.
    - [assert] statements are executed (the interpreter runs without -O). *)

From Stdlib Require Import ZArith String Ascii List DecimalString.
From stdpp Require Import base option gmap strings list.

Open Scope string_scope.
Open Scope Z_scope.

(** ** Python values *)

Inductive Atom : Type :=
| ANone
| ABool (b : bool)
| AInt (n : Z)
| AFloat (repr : string)
| AStr (s : string).

Inductive PyVal : Type :=
| VAtom (a : Atom)
| VList (items : list Atom).

Abbreviation VNone := (VAtom ANone).
Abbreviation VBool b := (VAtom (ABool b)).
Abbreviation VInt n := (VAtom (AInt n)).
Abbreviation VFloat r := (VAtom (AFloat r)).
Abbreviation VStr s := (VAtom (AStr s)).

(** ** Exceptions and results *)

Inductive PyExc : Type :=
| TypeError
| AttributeError
| IndexError
| AssertionError (msg : string)
| ValueError (msg : string)
| NotImplementedError (msg : string)
| CollaboratorError (msg : string).

Inductive Res (A : Type) : Type :=
| Ok (a : A)
| Raise (e : PyExc).

Arguments Ok {A} a.
Arguments Raise {A} e.

Definition res_bind {A B : Type} (r : Res A) (k : A -> Res B) : Res B :=
  match r with
  | Ok a => k a
  | Raise e => Raise e
  end.

#[global] Instance Res_ret : MRet Res := fun A a => Ok a.
#[global] Instance Res_bind : MBind Res := fun A B k r => res_bind r k.

(** A list comprehension whose element expression can raise: elements are
    computed left to right and the first exception ends it. *)
Fixpoint res_map {A B : Type} (f : A -> Res B) (l : list A) : Res (list B) :=
  match l with
  | [] => Ok []
  | x :: l' => y ← f x; ys ← res_map f l'; Ok (y :: ys)
  end.

(** ** Built-ins used by the script *)

(** [bool(v)] *)
Definition py_bool (v : PyVal) : bool :=
  match v with
  | VNone => false
  | VBool b => b
  | VInt n => negb (n =? 0)
  | VFloat r => negb (String.eqb r "0.0" || String.eqb r "-0.0")
  | VStr s => negb (String.eqb s "")
  | VList items => match items with [] => false | _ :: _ => true end
  end.

(** [str(a)], which is what an f-string field [{a}] inserts. *)
Definition py_str (a : Atom) : string :=
  match a with
  | ANone => "None"
  | ABool true => "True"
  | ABool false => "False"
  | AInt n => NilZero.string_of_int (Z.to_int n)
  | AFloat r => r
  | AStr s => s
  end.

Fixpoint chars (s : string) : list Atom :=
  match s with
  | EmptyString => []
  | String c s' => AStr (String c EmptyString) :: chars s'
  end.

(** [iter(v)], as a [for] clause of a comprehension consumes it. *)
Definition py_iter (v : PyVal) : Res (list Atom) :=
  match v with
  | VStr s => Ok (chars s)
  | VList items => Ok items
  | _ => Raise TypeError
  end.

(** [len(v)] *)
Definition py_len (v : PyVal) : Res Z :=
  match v with
  | VStr s => Ok (Z.of_nat (String.length s))
  | VList items => Ok (Z.of_nat (List.length items))
  | _ => Raise TypeError
  end.

(** [isinstance(v, str)] *)
Definition isinstance_str (v : PyVal) : bool :=
  match v with
  | VStr _ => true
  | _ => false
  end.

(** [v is None] *)
Definition is_None (v : PyVal) : bool :=
  match v with
  | VNone => true
  | _ => false
  end.

(** ** [os.path.join] (posixpath) *)

Definition sep : string := "/".

(** [s.startswith(sep)] *)
Definition startswith_sep (s : string) : bool :=
  match s with
  | EmptyString => false
  | String c _ => Ascii.eqb c "/"
  end.

(** [s.endswith(sep)] *)
Fixpoint endswith_sep (s : string) : bool :=
  match s with
  | EmptyString => false
  | String c EmptyString => Ascii.eqb c "/"
  | String _ s' => endswith_sep s'
  end.

(** [os.fspath] on the values of the model: only a [str] is a path. *)
Definition fspath (v : PyVal) : Res string :=
  match v with
  | VStr s => Ok s
  | _ => Raise TypeError
  end.

(** One turn of the loop of [posixpath.join]. *)
Definition join_step (path b : string) : string :=
  if startswith_sep b then b
  else if String.eqb path "" || endswith_sep path then path +:+ b
  else path +:+ sep +:+ b.

Fixpoint join_loop (path : string) (p : list PyVal) : Res string :=
  match p with
  | [] => Ok path
  | v :: p' => b ← fspath v; join_loop (join_step path b) p'
  end.

Definition os_path_join (a : PyVal) (p : list PyVal) : Res string :=
  path ← fspath a; join_loop path p.

(** The join of components that are known to be strings. *)
Definition join_strs (a : string) (p : list string) : string :=
  fold_left join_step p a.

(** ** The process state and the imported collaborators *)

(** The function handed to the trainer as [compute_metrics]. *)
Inductive MetricsFn : Type :=
| compute_metrics
| compute_metrics_multitask (task_names : PyVal).

(** Calls made to code outside this file, in the order they are made. *)
Inductive Event : Type :=
| EvHDF5Dataset (events_path : string) (label_paths : list string)
| EvLoadMultitask (checkpoint : PyVal) (checkpoint_type : string) (num_labels : list Z)
| EvLoadSingle (checkpoint : PyVal) (checkpoint_type : string) (num_labels : Z)
| EvFreezeLayers (layers : PyVal)
| EvTrainingArguments (kwargs : gmap string PyVal)
| EvTrainer (multitask : bool) (metrics : MetricsFn)
| EvTrain.

Record World : Type := mkWorld {
  (** [os.environ] *)
  environ : gmap string string;
  (** what [str(time.time())] returns now *)
  clock : string;
  (** [os.path.expanduser("~/tmp/musicbert_hf_logs")], computed when the
      class body is executed *)
  default_log_dir : string;
  (** the collaborator calls made so far, oldest first *)
  trace : list Event
}.

(** What the script imports from [musicbert_hf] and [transformers]. *)
Class Collaborators : Type := {
  Dataset : Type;
  Model : Type;
  TrainingArgs : Type;
  TrainerObj : Type;
  vocab_sizes : Dataset -> list Z;
  HDF5Dataset : string -> list string -> Res Dataset;
  load_musicbert_multitask_token_classifier_from_fairseq_checkpoint :
    PyVal -> string -> list Z -> Res Model;
  load_musicbert_token_classifier_from_fairseq_checkpoint :
    PyVal -> string -> Z -> Res Model;
  freeze_layers : Model -> PyVal -> Res Model;
  TrainingArguments : gmap string PyVal -> Res TrainingArgs;
  Trainer : Model -> TrainingArgs -> bool -> Dataset -> Dataset -> MetricsFn -> Res TrainerObj;
  train : TrainerObj -> Res unit
}.

(** ** The script monad: state [World], exceptions keep the state *)

Definition Run (A : Type) : Type := World -> Res A * World.

Definition run_ret {A : Type} (a : A) : Run A := fun w => (Ok a, w).

Definition run_bind {A B : Type} (c : Run A) (k : A -> Run B) : Run B :=
  fun w =>
    match c w with
    | (Ok a, w') => k a w'
    | (Raise e, w') => (Raise e, w')
    end.

Definition lift {A : Type} (r : Res A) : Run A := fun w => (r, w).

Definition raise {A : Type} (e : PyExc) : Run A := lift (Raise e).

Definition get_world : Run World := fun w => (Ok w, w).

(** The state after one more recorded collaborator call. *)
Definition logged (ev : Event) (w : World) : World :=
  mkWorld (environ w) (clock w) (default_log_dir w) (trace w ++ [ev]).

Definition log (ev : Event) : Run unit :=
  fun w => (Ok tt, logged ev w).

#[global] Instance Run_ret : MRet Run := fun A a => run_ret a.
#[global] Instance Run_bind : MBind Run := fun A B k c => run_bind c k.

(** A call to a collaborator: recorded, then its result or exception. *)
Definition call {A : Type} (ev : Event) (r : Res A) : Run A :=
  log ev;; lift r.


(** ** [class Config] *)

(** [Literal["train", "valid", "test"]] *)
Inductive Split : Type := train_split | valid_split | test_split.

Definition split_name (split : Split) : string :=
  match split with
  | train_split => "train"
  | valid_split => "valid"
  | test_split => "test"
  end.

Module Config.

(** The thirteen dataclass fields, and the attribute [_job_id] that
    [__post_init__] adds ([None] while it does not exist yet). *)
Record t : Type := mk {
  data_dir : PyVal;
  output_dir_base : PyVal;
  checkpoint_path : PyVal;
  targets : PyVal;
  conditioning : PyVal;
  log_dir : PyVal;
  num_epochs : PyVal;
  batch_size : PyVal;
  learning_rate : PyVal;
  warmup_steps : PyVal;
  max_steps : PyVal;
  wandb_project : PyVal;
  freeze_layers : PyVal;
  _job_id : option string
}.

(** [Config.__dataclass_fields__.keys()] *)
Definition __dataclass_fields__ : list string :=
  [ "data_dir"; "output_dir_base"; "checkpoint_path"; "targets";
    "conditioning"; "log_dir"; "num_epochs"; "batch_size"; "learning_rate";
    "warmup_steps"; "max_steps"; "wandb_project"; "freeze_layers" ].

(** A parameter without default: a missing argument is a [TypeError]. *)
Definition required (kwargs : gmap string PyVal) (name : string) : Res PyVal :=
  match kwargs !! name with
  | Some v => Ok v
  | None => Raise TypeError
  end.

(** The field assignments of the generated [__init__] when the class is
    called with the keyword arguments [kwargs]; a keyword that is no
    field is a [TypeError]. *)
Definition __init__ (w : World) (kwargs : gmap string PyVal) : Res t :=
  if bool_decide (map_Forall (fun k _ => k ∈ __dataclass_fields__) kwargs) then
    data_dir ← required kwargs "data_dir";
    output_dir_base ← required kwargs "output_dir_base";
    checkpoint_path ← required kwargs "checkpoint_path";
    targets ← required kwargs "targets";
    Ok {| data_dir := data_dir;
          output_dir_base := output_dir_base;
          checkpoint_path := checkpoint_path;
          targets := targets;
          conditioning := default VNone (kwargs !! "conditioning");
          log_dir := default (VStr (default_log_dir w)) (kwargs !! "log_dir");
          num_epochs := default (VInt 0) (kwargs !! "num_epochs");
          batch_size := default (VInt 4) (kwargs !! "batch_size");
          learning_rate := default (VFloat "0.00025") (kwargs !! "learning_rate");
          warmup_steps := default (VInt 0) (kwargs !! "warmup_steps");
          max_steps := default (VInt (-1)) (kwargs !! "max_steps");
          wandb_project := default VNone (kwargs !! "wandb_project");
          freeze_layers := default VNone (kwargs !! "freeze_layers");
          _job_id := None |}
  else Raise TypeError.

Definition __post_init__ (w : World) (self : t) : Res t :=
  if negb (is_None (num_epochs self)) || negb (is_None (max_steps self)) then
    let job_id :=
      match environ w !! "SLURM_JOB_ID" with
      | Some j => j
      | None => clock w
      end in
    let targets' :=
      match targets self with
      | VStr s => VList [AStr s]
      | v => v
      end in
    let conditioning' :=
      match conditioning self with
      | VStr s => VList [AStr s]
      | VNone => VList []
      | v => v
      end in
    Ok {| data_dir := data_dir self;
          output_dir_base := output_dir_base self;
          checkpoint_path := checkpoint_path self;
          targets := targets';
          conditioning := conditioning';
          log_dir := log_dir self;
          num_epochs := num_epochs self;
          batch_size := batch_size self;
          learning_rate := learning_rate self;
          warmup_steps := warmup_steps self;
          max_steps := max_steps self;
          wandb_project := wandb_project self;
          freeze_layers := freeze_layers self;
          _job_id := Some job_id |}
  else Raise (AssertionError "Either num_epochs or max_steps must be provided").

(** Calling the class: [__init__], which ends by calling
    [__post_init__]. *)
Definition new (w : World) (kwargs : gmap string PyVal) : Res t :=
  self ← __init__ w kwargs; __post_init__ w self.

Definition train_dir (self : t) : Res string :=
  os_path_join (data_dir self) [VStr "train"].

Definition valid_dir (self : t) : Res string :=
  os_path_join (data_dir self) [VStr "valid"].

Definition test_dir (self : t) : Res string :=
  os_path_join (data_dir self) [VStr "test"].

Definition output_dir (self : t) : Res string :=
  match _job_id self with
  | Some j => os_path_join (output_dir_base self) [VStr j]
  | None => Raise AttributeError
  end.

Definition target_paths (self : t) (split : Split) : Res (list string) :=
  items ← py_iter (targets self);
  res_map (fun target =>
             os_path_join (data_dir self)
               [VStr (split_name split); VStr (py_str target +:+ ".h5")])
          items.

Definition conditioning_paths (self : t) (split : Split) : Res (list string) :=
  items ← py_iter (conditioning self);
  res_map (fun cond =>
             os_path_join (data_dir self)
               [VStr (split_name split); VStr (py_str cond +:+ ".h5")])
          items.

Definition multitask (self : t) : Res bool :=
  n ← py_len (targets self); Ok (1 <? n).

End Config.

(** ** [os.environ] *)

Fixpoint has_nul (s : string) : bool :=
  match s with
  | EmptyString => false
  | String c s' => Ascii.eqb c Ascii.zero || has_nul s'
  end.

Definition with_environ (env : gmap string string) (w : World) : World :=
  mkWorld env (clock w) (default_log_dir w) (trace w).

(** [os.environ[key] = value]: the value has to be a [str], and one the
    C library accepts. *)
Definition environ_setitem (key : string) (value : PyVal) : Run unit :=
  fun w =>
    match value with
    | VStr s =>
        if has_nul s then (Raise (ValueError "embedded null byte"), w)
        else (Ok tt, with_environ (<[key := s]> (environ w)) w)
    | _ => (Raise TypeError, w)
    end.

(** [os.environ.pop(key, None)] *)
Definition environ_pop (key : string) : Run unit :=
  fun w => (Ok tt, with_environ (delete key (environ w)) w).

(** ** The functions and the body of the script *)

Section Script.

Context `{Collaborators}.

(** [getattr(config, f"{split}_dir")] *)
Definition split_dir (config : Config.t) (split : Split) : Res string :=
  match split with
  | train_split => Config.train_dir config
  | valid_split => Config.valid_dir config
  | test_split => Config.test_dir config
  end.

Definition get_dataset (config : Config.t) (split : Split) : Run Dataset :=
  data_dir ← lift (split_dir config split);
  events_path ← lift (os_path_join (VStr data_dir) [VStr "events.h5"]);
  label_paths ← lift (Config.target_paths config split);
  call (EvHDF5Dataset events_path label_paths) (HDF5Dataset events_path label_paths).

Definition config_fields : gset string := list_to_set Config.__dataclass_fields__.

(** The two dict comprehensions over [conf.items()]. *)
Definition config_kwargs_of (conf : gmap string PyVal) : gmap string PyVal :=
  filter (fun kv => kv.1 ∈ config_fields) conf.

Definition training_kwargs_of (conf : gmap string PyVal) : gmap string PyVal :=
  filter (fun kv => kv.1 ∉ config_fields) conf.

(** [conf] is what [OmegaConf.from_cli(sys.argv[1:])] returned. *)
Definition get_config_and_training_kwargs (conf : gmap string PyVal)
  : Run (Config.t * gmap string PyVal) :=
  let config_kwargs := config_kwargs_of conf in
  let training_kwargs := training_kwargs_of conf in
  w ← get_world;
  config ← lift (Config.new w config_kwargs);
  mret (config, training_kwargs).

(** Lines 112-115: the tracking project goes to the environment. *)
Definition setup_wandb (config : Config.t) : Run unit :=
  if py_bool (Config.wandb_project config) then
    environ_setitem "WANDB_PROJECT" (Config.wandb_project config)
  else
    environ_pop "WANDB_PROJECT".

(** [vocab_sizes[0]] *)
Definition first_vocab_size (sizes : list Z) : Res Z :=
  match sizes with
  | n :: _ => Ok n
  | [] => Raise IndexError
  end.

(** Lines 124-150: which loader builds the model. *)
Definition select_model (config : Config.t) (train_dataset : Dataset) : Run Model :=
  if py_bool (Config.checkpoint_path config) then
    multitask ← lift (Config.multitask config);
    if (multitask : bool) then
      if py_bool (Config.conditioning config) then
        raise (NotImplementedError
                 "Conditioning is not yet implemented for multitask training")
      else
        let num_labels := vocab_sizes train_dataset in
        call (EvLoadMultitask (Config.checkpoint_path config) "musicbert" num_labels)
             (load_musicbert_multitask_token_classifier_from_fairseq_checkpoint
                (Config.checkpoint_path config) "musicbert" num_labels)
    else
      if py_bool (Config.conditioning config) then
        raise (NotImplementedError
                 "Conditioning is not yet implemented for single-task training")
      else
        num_labels ← lift (first_vocab_size (vocab_sizes train_dataset));
        call (EvLoadSingle (Config.checkpoint_path config) "musicbert" num_labels)
             (load_musicbert_token_classifier_from_fairseq_checkpoint
                (Config.checkpoint_path config) "musicbert" num_labels)
  else
    raise (ValueError "checkpoint_path must be provided").

(** Lines 155-170: the [dict(...)] of defaults. *)
Definition default_training_kwargs (config : Config.t) : Res (gmap string PyVal) :=
  output_dir ← Config.output_dir config;
  Ok (list_to_map
        [ ("output_dir", VStr output_dir);
          ("num_train_epochs", Config.num_epochs config);
          ("per_device_train_batch_size", Config.batch_size config);
          ("per_device_eval_batch_size", Config.batch_size config);
          ("warmup_steps", Config.warmup_steps config);
          ("logging_dir", Config.log_dir config);
          ("max_steps", Config.max_steps config);
          ("push_to_hub", VBool false);
          ("eval_on_start", VBool true);
          ("eval_strategy", VStr "steps");
          ("metric_for_best_model", VStr "accuracy");
          ("greater_is_better", VBool true);
          ("save_total_limit", VInt 2);
          ("load_best_model_at_end", VBool true) ]).

(** [defaults | training_kwargs]: the right operand wins. *)
Definition dict_or (defaults training_kwargs : gmap string PyVal) : gmap string PyVal :=
  training_kwargs ∪ defaults.

(** Lines 154-176: the keyword arguments given to [TrainingArguments]. *)
Definition final_training_kwargs (config : Config.t) (training_kwargs : gmap string PyVal)
  : Res (gmap string PyVal) :=
  defaults ← default_training_kwargs config;
  let training_kwargs := dict_or defaults training_kwargs in
  if py_bool (Config.wandb_project config) then
    Ok (<["report_to" := VStr "wandb"]> training_kwargs)
  else
    Ok (<["report_to" := VNone]> training_kwargs).

(** Lines 180-185 *)
Definition select_metrics (config : Config.t) : Res MetricsFn :=
  multitask ← Config.multitask config;
  if (multitask : bool) then Ok (compute_metrics_multitask (Config.targets config))
  else Ok compute_metrics.

(** The body under [if __name__ == "__main__"]. *)
Definition main (conf : gmap string PyVal) : Run unit :=
  '(config, training_kwargs) ← get_config_and_training_kwargs conf;
  setup_wandb config;;
  train_dataset ← get_dataset config train_split;
  valid_dataset ← get_dataset config valid_split;
  model ← select_model config train_dataset;
  model ← call (EvFreezeLayers (Config.freeze_layers config))
               (freeze_layers model (Config.freeze_layers config));
  training_kwargs ← lift (final_training_kwargs config training_kwargs);
  training_args ← call (EvTrainingArguments training_kwargs)
                       (TrainingArguments training_kwargs);
  compute_metrics_fn ← lift (select_metrics config);
  multitask ← lift (Config.multitask config);
  trainer ← call (EvTrainer multitask compute_metrics_fn)
                 (Trainer model training_args multitask train_dataset valid_dataset
                    compute_metrics_fn);
  call EvTrain (train trainer).

End Script.

(** ** Vocabulary of the properties *)

(** What the constructor asks of its keyword arguments. *)
Definition accepted (kwargs : gmap string PyVal) : Prop :=
  map_Forall (fun k _ => k ∈ Config.__dataclass_fields__) kwargs /\
  is_Some (kwargs !! "data_dir") /\
  is_Some (kwargs !! "output_dir_base") /\
  is_Some (kwargs !! "checkpoint_path") /\
  is_Some (kwargs !! "targets") /\
  ~ (kwargs !! "num_epochs" = Some VNone /\ kwargs !! "max_steps" = Some VNone).

Definition is_dataset_event (ev : Event) : Prop :=
  match ev with
  | EvHDF5Dataset _ _ => True
  | _ => False
  end.

(** The keyword arguments of the [TrainingArguments] calls in a trace. *)
Definition training_arguments_in (tr : list Event) : list (gmap string PyVal) :=
  omap (fun ev => match ev with EvTrainingArguments kwargs => Some kwargs | _ => None end) tr.

(** The state after the collaborator calls [evs] have been recorded. *)
Definition extend (w : World) (evs : list Event) : World :=
  mkWorld (environ w) (clock w) (default_log_dir w) (trace w ++ evs).

(** The place of a collaborator call in the script: dataset construction,
    model loading, layer freezing, training arguments, trainer, training. *)
Definition stage (ev : Event) : nat :=
  match ev with
  | EvHDF5Dataset _ _ => 0
  | EvLoadMultitask _ _ _ => 1
  | EvLoadSingle _ _ _ => 1
  | EvFreezeLayers _ => 2
  | EvTrainingArguments _ => 3
  | EvTrainer _ _ => 4
  | EvTrain => 5
  end%nat.

(** The stages of a complete run: two datasets, then one of each. *)
Definition script_stages : list nat := [0; 0; 1; 2; 3; 4; 5]%nat.

(** A computation that only records collaborator calls, at the stages
    [stages] in this order: it may stop early with an exception, and when
    it returns it has gone through all of them. *)
Definition staged {A : Type} (c : Run A) (stages : list nat) : Prop :=
  forall w : World,
    exists (r : Res A) (evs : list Event),
      c w = (r, extend w evs) /\
      stage <$> evs `prefix_of` stages /\
      (forall a, r = Ok a -> stage <$> evs = stages).

(** The event of the [HDF5Dataset] call that [get_dataset] makes for
    [split]: the events file and the label files of that split. *)
Definition dataset_call (config : Config.t) (split : Split) (ev : Event) : Prop :=
  exists (dir : string) (label_paths : list string),
    split_dir config split = Ok dir /\
    Config.target_paths config split = Ok label_paths /\
    ev = EvHDF5Dataset (join_strs dir ["events.h5"]) label_paths.

Section AfterSetup.

Context `{Collaborators}.

(** Lines 124-197 of the script, what follows the two datasets. *)
Definition after_datasets (config : Config.t) (training_kwargs : gmap string PyVal)
    (train_dataset valid_dataset : Dataset) : Run unit :=
  model ← select_model config train_dataset;
  model ← call (EvFreezeLayers (Config.freeze_layers config))
               (freeze_layers model (Config.freeze_layers config));
  training_kwargs ← lift (final_training_kwargs config training_kwargs);
  training_args ← call (EvTrainingArguments training_kwargs)
                       (TrainingArguments training_kwargs);
  compute_metrics_fn ← lift (select_metrics config);
  multitask ← lift (Config.multitask config);
  trainer ← call (EvTrainer multitask compute_metrics_fn)
                 (Trainer model training_args multitask train_dataset valid_dataset
                    compute_metrics_fn);
  call EvTrain (train trainer).

(** Lines 121-197 of the script, what follows the telemetry step. *)
Definition after_setup (config : Config.t) (training_kwargs : gmap string PyVal)
  : Run unit :=
  train_dataset ← get_dataset config train_split;
  valid_dataset ← get_dataset config valid_split;
  after_datasets config training_kwargs train_dataset valid_dataset.

End AfterSetup.

(** ** A concrete set of collaborators and a concrete command line

    Used to run the script on examples: a dataset handle is its list of
    vocabulary sizes (here the length of each label path), a model is the
    list of head sizes it was loaded with. *)

Module Demo.

#[local] Instance collaborators : Collaborators := {|
  Dataset := list Z;
  Model := list Z;
  TrainingArgs := gmap string PyVal;
  TrainerObj := unit;
  vocab_sizes := fun d => d;
  HDF5Dataset := fun _ label_paths =>
    Ok (map (fun p => Z.of_nat (String.length p)) label_paths);
  load_musicbert_multitask_token_classifier_from_fairseq_checkpoint :=
    fun _ _ num_labels => Ok num_labels;
  load_musicbert_token_classifier_from_fairseq_checkpoint :=
    fun _ _ num_labels => Ok [num_labels];
  freeze_layers := fun m _ => Ok m;
  TrainingArguments := fun kwargs => Ok kwargs;
  Trainer := fun _ _ _ _ _ _ => Ok tt;
  train := fun _ => Ok tt
|}.

(** The same, on a machine where the dataset files are missing. *)
#[local] Instance no_data : Collaborators := {|
  Dataset := list Z;
  Model := list Z;
  TrainingArgs := gmap string PyVal;
  TrainerObj := unit;
  vocab_sizes := fun d => d;
  HDF5Dataset := fun _ _ => Raise (CollaboratorError "No such file or directory");
  load_musicbert_multitask_token_classifier_from_fairseq_checkpoint :=
    fun _ _ num_labels => Ok num_labels;
  load_musicbert_token_classifier_from_fairseq_checkpoint :=
    fun _ _ num_labels => Ok [num_labels];
  freeze_layers := fun m _ => Ok m;
  TrainingArguments := fun kwargs => Ok kwargs;
  Trainer := fun _ _ _ _ _ _ => Ok tt;
  train := fun _ => Ok tt
|}.

(** A workstation: no cluster job, an old tracking project still set. *)
Definition laptop : World :=
  mkWorld (<["WANDB_PROJECT" := "stale"]> ∅) "1730736000.5" "/home/u/tmp/musicbert_hf_logs" [].

(** A cluster node running job 4242. *)
Definition cluster : World :=
  mkWorld (<["SLURM_JOB_ID" := "4242"]> ∅) "1730736000.5" "/home/u/tmp/musicbert_hf_logs" [].

(** [data_dir=/d output_dir_base=/out checkpoint_path=/ckpt targets=[onset,pitch]] *)
Definition two_targets : gmap string PyVal :=
  list_to_map
    [ ("data_dir", VStr "/d"); ("output_dir_base", VStr "/out");
      ("checkpoint_path", VStr "/ckpt");
      ("targets", VList [AStr "onset"; AStr "pitch"]) ].

(** [data_dir=/d output_dir_base=/out checkpoint_path=/ckpt targets=onset] *)
Definition one_target : gmap string PyVal :=
  list_to_map
    [ ("data_dir", VStr "/d"); ("output_dir_base", VStr "/out");
      ("checkpoint_path", VStr "/ckpt"); ("targets", VStr "onset") ].

(** [one_target] with [checkpoint_path=""]. *)
Definition no_checkpoint : gmap string PyVal :=
  <["checkpoint_path" := VStr ""]> one_target.

(** [one_target] with [report_to=tensorboard logging_steps=10]. *)
Definition with_report_to : gmap string PyVal :=
  <["report_to" := VStr "tensorboard"]> (<["logging_steps" := VInt 10]> one_target).

(** [one_target] with [conditioning=key]. *)
Definition with_conditioning : gmap string PyVal :=
  <["conditioning" := VStr "key"]> one_target.


(** [laptop] once the stale tracking project is cleared and the train and
    valid handles of [one_target] are built. *)
Definition laptop_with_datasets : World :=
  mkWorld ∅ "1730736000.5" "/home/u/tmp/musicbert_hf_logs"
    [ EvHDF5Dataset "/d/train/events.h5" ["/d/train/onset.h5"];
      EvHDF5Dataset "/d/valid/events.h5" ["/d/valid/onset.h5"] ].

(** [laptop] once the stale tracking project is cleared and the
    construction of the train handle has been attempted. *)
Definition laptop_with_train_attempt : World :=
  mkWorld ∅ "1730736000.5" "/home/u/tmp/musicbert_hf_logs"
    [ EvHDF5Dataset "/d/train/events.h5" ["/d/train/onset.h5"] ].

(** What [Config] makes of [with_conditioning] on [laptop]. *)
Definition conditioned_config : Config.t :=
  {| Config.data_dir := VStr "/d";
     Config.output_dir_base := VStr "/out";
     Config.checkpoint_path := VStr "/ckpt";
     Config.targets := VList [AStr "onset"];
     Config.conditioning := VList [AStr "key"];
     Config.log_dir := VStr "/home/u/tmp/musicbert_hf_logs";
     Config.num_epochs := VInt 0;
     Config.batch_size := VInt 4;
     Config.learning_rate := VFloat "0.00025";
     Config.warmup_steps := VInt 0;
     Config.max_steps := VInt (-1);
     Config.wandb_project := VNone;
     Config.freeze_layers := VNone;
     Config._job_id := Some "1730736000.5" |}.


(** What [Config] makes of [one_target] on [laptop]. *)
Definition one_target_config : Config.t :=
  {| Config.data_dir := VStr "/d";
     Config.output_dir_base := VStr "/out";
     Config.checkpoint_path := VStr "/ckpt";
     Config.targets := VList [AStr "onset"];
     Config.conditioning := VList [];
     Config.log_dir := VStr "/home/u/tmp/musicbert_hf_logs";
     Config.num_epochs := VInt 0;
     Config.batch_size := VInt 4;
     Config.learning_rate := VFloat "0.00025";
     Config.warmup_steps := VInt 0;
     Config.max_steps := VInt (-1);
     Config.wandb_project := VNone;
     Config.freeze_layers := VNone;
     Config._job_id := Some "1730736000.5" |}.

(** What [Config] makes of [two_targets] on [cluster]. *)
Definition cluster_config : Config.t :=
  {| Config.data_dir := VStr "/d";
     Config.output_dir_base := VStr "/out";
     Config.checkpoint_path := VStr "/ckpt";
     Config.targets := VList [AStr "onset"; AStr "pitch"];
     Config.conditioning := VList [];
     Config.log_dir := VStr "/home/u/tmp/musicbert_hf_logs";
     Config.num_epochs := VInt 0;
     Config.batch_size := VInt 4;
     Config.learning_rate := VFloat "0.00025";
     Config.warmup_steps := VInt 0;
     Config.max_steps := VInt (-1);
     Config.wandb_project := VNone;
     Config.freeze_layers := VNone;
     Config._job_id := Some "4242" |}.

End Demo.

(** * Properties *)

(** ** Results and the script monad *)

Lemma res_bind_Ok {A B : Type} (r : Res A) (k : A -> Res B) (b : B) :
  (r ≫= k) = Ok b -> exists a, r = Ok a /\ k a = Ok b.
Proof. destruct r as [a|e]; simpl; [eauto | discriminate]. Qed.

Lemma res_map_Ok {A B : Type} (f : A -> Res B) (g : A -> B) (l : list A) :
  (forall x, x ∈ l -> f x = Ok (g x)) -> res_map f l = Ok (map g l).
Proof.
  induction l as [|x l IH]; intros Hf; [reflexivity|].
  simpl. rewrite (Hf x) by apply list_elem_of_here. simpl.
  rewrite IH; [reflexivity|].
  intros y Hy. apply Hf. by apply list_elem_of_further.
Qed.

Lemma os_path_join_strs (a : string) (p : list string) :
  os_path_join (VStr a) (map (fun s => VStr s) p) = Ok (join_strs a p).
Proof.
  unfold os_path_join, join_strs. simpl.
  revert a. induction p as [|b p IH]; intros a; [reflexivity|].
  simpl. apply IH.
Qed.

Lemma append_assoc (a b c : string) : (a +:+ b) +:+ c = a +:+ b +:+ c.
Proof.
  induction a as [|x a IH]; [reflexivity|].
  change (String x ((a +:+ b) +:+ c) = String x (a +:+ b +:+ c)). by rewrite IH.
Qed.

(** When no component restarts the path and the root does not already end
    in a separator, the join is the components written with "/" between. *)
Lemma join_step_plain (path b : string) :
  startswith_sep b = false -> path <> "" -> endswith_sep path = false ->
  join_step path b = path +:+ "/" +:+ b.
Proof.
  intros Hb Hne He. unfold join_step. rewrite Hb, He.
  destruct (String.eqb_spec path ""); [contradiction|reflexivity].
Qed.

Lemma res_map_length {A B : Type} (f : A -> Res B) (l : list A) (l' : list B) :
  res_map f l = Ok l' -> length l' = length l.
Proof.
  revert l'. induction l as [|x l IH]; intros l' Hm; simpl in Hm.
  - by injection Hm as <-.
  - destruct (f x) as [y|e]; [|discriminate]. simpl in Hm.
    destruct (res_map f l) as [ys|e]; [|discriminate]. simpl in Hm.
    injection Hm as <-. simpl. f_equal. by apply IH.
Qed.

Lemma call_eq {A : Type} (ev : Event) (r : Res A) (w : World) :
  call ev r w = (r, logged ev w).
Proof. reflexivity. Qed.

Lemma run_bind_lift_Ok {A B : Type} (a : A) (k : A -> Run B) (w : World) :
  (lift (Ok a) ≫= k) w = k a w.
Proof. reflexivity. Qed.

Lemma run_bind_lift_Raise {A B : Type} (e : PyExc) (k : A -> Run B) (w : World) :
  (lift (Raise e) ≫= k) w = (Raise e, w).
Proof. reflexivity. Qed.

(** ** Construction of a [Config] *)

Lemma init_Ok (w : World) (kwargs : gmap string PyVal) (self : Config.t) :
  Config.__init__ w kwargs = Ok self ->
  map_Forall (fun k _ => k ∈ Config.__dataclass_fields__) kwargs /\
  kwargs !! "data_dir" = Some (Config.data_dir self) /\
  kwargs !! "output_dir_base" = Some (Config.output_dir_base self) /\
  kwargs !! "checkpoint_path" = Some (Config.checkpoint_path self) /\
  kwargs !! "targets" = Some (Config.targets self) /\
  Config.conditioning self = default VNone (kwargs !! "conditioning") /\
  Config.num_epochs self = default (VInt 0) (kwargs !! "num_epochs") /\
  Config.max_steps self = default (VInt (-1)) (kwargs !! "max_steps") /\
  Config.wandb_project self = default VNone (kwargs !! "wandb_project").
Proof.
  unfold Config.__init__, Config.required. intros Hi.
  case_bool_decide as Hk; [|discriminate].
  destruct (kwargs !! "data_dir") as [dd|]; [|discriminate].
  destruct (kwargs !! "output_dir_base") as [ob|]; [|discriminate].
  destruct (kwargs !! "checkpoint_path") as [cp|]; [|discriminate].
  destruct (kwargs !! "targets") as [tg|]; [|discriminate].
  simpl in Hi. injection Hi as <-. simpl. repeat split; assumption || reflexivity.
Qed.

Lemma post_init_Ok (w : World) (self cfg : Config.t) :
  Config.__post_init__ w self = Ok cfg ->
  Config.data_dir cfg = Config.data_dir self /\
  Config.output_dir_base cfg = Config.output_dir_base self /\
  Config.checkpoint_path cfg = Config.checkpoint_path self /\
  Config.wandb_project cfg = Config.wandb_project self /\
  Config.targets cfg =
    match Config.targets self with VStr s => VList [AStr s] | v => v end /\
  Config.conditioning cfg =
    match Config.conditioning self with
    | VStr s => VList [AStr s]
    | VNone => VList []
    | v => v
    end /\
  Config._job_id cfg =
    Some (match environ w !! "SLURM_JOB_ID" with Some j => j | None => clock w end).
Proof.
  unfold Config.__post_init__. intros Hp.
  destruct (negb (is_None (Config.num_epochs self)) || negb (is_None (Config.max_steps self)));
    [|discriminate].
  injection Hp as <-. simpl. repeat split; reflexivity.
Qed.

Lemma new_Ok (w : World) (kwargs : gmap string PyVal) (cfg : Config.t) :
  Config.new w kwargs = Ok cfg ->
  exists self, Config.__init__ w kwargs = Ok self /\ Config.__post_init__ w self = Ok cfg.
Proof. unfold Config.new. apply res_bind_Ok. Qed.

(** C6. After construction, [targets] given as one string [s] is the list
    [[s]] and [targets] given as a list is that list; [conditioning] given
    as one string is wrapped in a one-element list, and [conditioning]
    left out or given as [None] is the empty list. *)
Theorem C6_targets_and_conditioning_are_lists
    (w : World) (kwargs : gmap string PyVal) (cfg : Config.t) :
  Config.new w kwargs = Ok cfg ->
  (forall s, kwargs !! "targets" = Some (VStr s) -> Config.targets cfg = VList [AStr s]) /\
  (forall l, kwargs !! "targets" = Some (VList l) -> Config.targets cfg = VList l) /\
  (forall s, kwargs !! "conditioning" = Some (VStr s) ->
             Config.conditioning cfg = VList [AStr s]) /\
  (kwargs !! "conditioning" = None \/ kwargs !! "conditioning" = Some VNone ->
   Config.conditioning cfg = VList []).
Proof.
  intros Hnew. destruct (new_Ok _ _ _ Hnew) as (self & Hi & Hp).
  destruct (init_Ok _ _ _ Hi) as (_ & _ & _ & _ & Ht & Hc & _).
  destruct (post_init_Ok _ _ _ Hp) as (_ & _ & _ & _ & Ht' & Hc' & _).
  rewrite Ht', Hc', Hc. clear Ht' Hc' Hc.
  repeat split.
  - intros s Hs. rewrite Hs in Ht. by injection Ht as <-.
  - intros l Hl. rewrite Hl in Ht. by injection Ht as <-.
  - intros s Hs. by rewrite Hs.
  - intros [Hn|Hn]; by rewrite Hn.
Qed.

Lemma C6_witness :
  Config.new Demo.laptop Demo.one_target = Ok Demo.one_target_config /\
  Config.targets Demo.one_target_config = VList [AStr "onset"].
Proof.
  assert (Hnew : Config.new Demo.laptop Demo.one_target = Ok Demo.one_target_config)
    by (vm_compute; reflexivity).
  split; [exact Hnew|].
  apply (proj1 (C6_targets_and_conditioning_are_lists _ _ _ Hnew) "onset").
  vm_compute. reflexivity.
Defined.

(** C8. Construction fails on the epoch/step precondition exactly when both
    [num_epochs] and [max_steps] are [None]: [__post_init__] raises the
    [AssertionError] in that case and raises nothing otherwise, and the
    whole constructor raises it exactly when the arguments are accepted by
    [__init__] and leave both fields [None].  When both are passed as
    [None] construction always fails. *)
Theorem C8_epochs_or_steps_required (w : World) :
  (forall self : Config.t,
      (Config.num_epochs self = VNone /\ Config.max_steps self = VNone <->
       Config.__post_init__ w self =
         Raise (AssertionError "Either num_epochs or max_steps must be provided")) /\
      (~ (Config.num_epochs self = VNone /\ Config.max_steps self = VNone) <->
       exists cfg, Config.__post_init__ w self = Ok cfg)) /\
  (forall kwargs : gmap string PyVal,
      (Config.new w kwargs =
         Raise (AssertionError "Either num_epochs or max_steps must be provided") <->
       exists self, Config.__init__ w kwargs = Ok self /\
                    kwargs !! "num_epochs" = Some VNone /\
                    kwargs !! "max_steps" = Some VNone) /\
      (kwargs !! "num_epochs" = Some VNone /\ kwargs !! "max_steps" = Some VNone ->
       exists e, Config.new w kwargs = Raise e)).
Proof.
  assert (Hpost : forall self : Config.t,
      (Config.num_epochs self = VNone /\ Config.max_steps self = VNone <->
       Config.__post_init__ w self =
         Raise (AssertionError "Either num_epochs or max_steps must be provided")) /\
      (~ (Config.num_epochs self = VNone /\ Config.max_steps self = VNone) <->
       exists cfg, Config.__post_init__ w self = Ok cfg)).
  { intros self. unfold Config.__post_init__.
    destruct (Config.num_epochs self) as [[| | | |]|]; simpl;
      try (split; split; [intros [? _]; discriminate | discriminate
                         | eauto | intros _ [? _]; discriminate]).
    destruct (Config.max_steps self) as [[| | | |]|]; simpl;
      try (split; split; [intros [_ ?]; discriminate | discriminate
                         | eauto | intros _ [_ ?]; discriminate]).
    split; split; [reflexivity | tauto | tauto | intros [cfg ?]; discriminate]. }
  assert (Hnone : forall (o : option PyVal) (d : PyVal),
             d <> VNone -> default d o = VNone <-> o = Some VNone).
  { intros [v|] d Hd; simpl; split; intros Heq; congruence. }
  split; [exact Hpost|]. intros kwargs. split; [split|].
  - unfold Config.new. destruct (Config.__init__ w kwargs) as [self|e] eqn:Hi; simpl.
    + intros Hp. exists self. split; [reflexivity|].
      apply (proj1 (Hpost self)) in Hp. destruct Hp as [Hn Hm].
      destruct (init_Ok _ _ _ Hi) as (_ & _ & _ & _ & _ & _ & Hn' & Hm' & _).
      rewrite Hn' in Hn. rewrite Hm' in Hm.
      split; [eapply Hnone, Hn | eapply Hnone, Hm]; discriminate.
    + intros He. injection He as ->. exfalso.
      unfold Config.__init__, Config.required in Hi.
      case_bool_decide; [|discriminate].
      destruct (kwargs !! "data_dir"); [|discriminate].
      destruct (kwargs !! "output_dir_base"); [|discriminate].
      destruct (kwargs !! "checkpoint_path"); [|discriminate].
      destruct (kwargs !! "targets"); discriminate.
  - intros (self & Hi & Hn & Hm). unfold Config.new. rewrite Hi. simpl.
    apply (proj1 (Hpost self)).
    destruct (init_Ok _ _ _ Hi) as (_ & _ & _ & _ & _ & _ & Hn' & Hm' & _).
    rewrite Hn', Hm', Hn, Hm. split; reflexivity.
  - intros [Hn Hm]. unfold Config.new.
    destruct (Config.__init__ w kwargs) as [self|e] eqn:Hi; simpl; [|eauto].
    eexists. apply (proj1 (Hpost self)).
    destruct (init_Ok _ _ _ Hi) as (_ & _ & _ & _ & _ & _ & Hn' & Hm' & _).
    rewrite Hn', Hm', Hn, Hm. split; reflexivity.
Qed.

(** C9. The run identifier of a constructed [Config] is the value of
    [SLURM_JOB_ID] in the environment of the construction when the variable
    is set, and the clock reading of the construction otherwise.  It is
    stored in the object: [output_dir] reads neither the environment nor the
    clock, so in whatever later state of the process it is read it gives
    the same result, the join of [output_dir_base] with the identifier. *)
Theorem C9_run_identifier_fixed_at_construction
    (w : World) (kwargs : gmap string PyVal) (cfg : Config.t) :
  Config.new w kwargs = Ok cfg ->
  let job_id :=
    match environ w !! "SLURM_JOB_ID" with
    | Some j => j
    | None => clock w
    end in
  Config._job_id cfg = Some job_id /\
  (forall w1 w2 : World,
      fst (lift (Config.output_dir cfg) w1) = fst (lift (Config.output_dir cfg) w2)) /\
  (forall base : string,
      kwargs !! "output_dir_base" = Some (VStr base) ->
      Config.output_dir cfg = Ok (join_strs base [job_id])).
Proof.
  intros Hnew job_id. destruct (new_Ok _ _ _ Hnew) as (self & Hi & Hp).
  destruct (init_Ok _ _ _ Hi) as (_ & _ & Hob & _).
  destruct (post_init_Ok _ _ _ Hp) as (_ & Hob' & _ & _ & _ & _ & Hj).
  split; [exact Hj|]. split; [reflexivity|].
  intros base Hbase. rewrite Hbase in Hob. injection Hob as Hob.
  unfold Config.output_dir. rewrite Hj, Hob', <- Hob.
  apply (os_path_join_strs base [job_id]).
Qed.

Lemma C9_witness :
  Config.new Demo.cluster Demo.two_targets = Ok Demo.cluster_config /\
  Config._job_id Demo.cluster_config = Some "4242" /\
  Config.output_dir Demo.cluster_config = Ok "/out/4242".
Proof.
  assert (Hnew : Config.new Demo.cluster Demo.two_targets = Ok Demo.cluster_config)
    by (vm_compute; reflexivity).
  split; [exact Hnew|].
  pose proof (C9_run_identifier_fixed_at_construction _ _ _ Hnew) as (Hj & _ & Ho).
  split; [exact Hj|].
  apply (Ho "/out"). vm_compute. reflexivity.
Defined.

(** C7. For a constructed [Config] whose data root is a string,
    [target_paths split] returns one path per element of the [targets]
    list, in the order of that list; the path of target [t] is the
    [os.path.join] of the data root, the split name and [t] followed by
    ".h5".  When the root is not empty and does not end in "/", and the
    target name does not start with "/", that path reads
    [<data_dir>/<split>/<t>.h5]. *)
Theorem C7_target_paths
    (w : World) (kwargs : gmap string PyVal) (cfg : Config.t)
    (root : string) (ts : list Atom) (split : Split) :
  Config.new w kwargs = Ok cfg ->
  kwargs !! "data_dir" = Some (VStr root) ->
  Config.targets cfg = VList ts ->
  exists paths : list string,
    Config.target_paths cfg split = Ok paths /\
    length paths = length ts /\
    (forall (i : nat) (t : Atom),
        ts !! i = Some t ->
        paths !! i = Some (join_strs root [split_name split; py_str t +:+ ".h5"])) /\
    (forall (i : nat) (t : string),
        ts !! i = Some (AStr t) ->
        root <> "" -> endswith_sep root = false -> startswith_sep t = false ->
        paths !! i = Some (root +:+ "/" +:+ split_name split +:+ "/" +:+ t +:+ ".h5")).
Proof.
  intros Hnew Hroot Hts. destruct (new_Ok _ _ _ Hnew) as (self & Hi & Hp).
  destruct (init_Ok _ _ _ Hi) as (_ & Hdd & _).
  destruct (post_init_Ok _ _ _ Hp) as (Hdd' & _).
  rewrite Hroot in Hdd. injection Hdd as Hdd. rewrite <- Hdd in Hdd'.
  set (path_of := fun t : Atom => join_strs root [split_name split; py_str t +:+ ".h5"]).
  assert (Hpaths : Config.target_paths cfg split = Ok (map path_of ts)).
  { unfold Config.target_paths. rewrite Hts, Hdd'. simpl.
    apply res_map_Ok. intros t _.
    apply (os_path_join_strs root [split_name split; py_str t +:+ ".h5"]). }
  assert (Hlookup : forall i t, ts !! i = Some t -> map path_of ts !! i = Some (path_of t)).
  { intros i t Hi'. change (map path_of ts) with (path_of <$> ts).
    by rewrite list_lookup_fmap, Hi'. }
  exists (map path_of ts). split; [exact Hpaths|].
  split; [apply length_map|]. split; [exact Hlookup|].
  intros i t Hi' Hne Hend Hstart. rewrite (Hlookup i _ Hi').
  f_equal. unfold path_of, join_strs. simpl.
  assert (Hsplit : startswith_sep (split_name split) = false) by (by destruct split).
  rewrite (join_step_plain root _ Hsplit Hne Hend).
  rewrite join_step_plain.
  - by rewrite !append_assoc.
  - destruct t as [|c t]; [reflexivity|exact Hstart].
  - destruct root; [contradiction|discriminate].
  - clear -Hsplit. destruct split; simpl.
    all: induction root as [|c [|c' r] IH]; simpl in *; try reflexivity; try exact IH.
Qed.

Lemma C7_witness :
  Config.new Demo.cluster Demo.two_targets = Ok Demo.cluster_config /\
  exists paths : list string,
    Config.target_paths Demo.cluster_config train_split = Ok paths /\
    length paths = 2%nat /\
    paths !! 1%nat = Some "/d/train/pitch.h5".
Proof.
  assert (Hnew : Config.new Demo.cluster Demo.two_targets = Ok Demo.cluster_config)
    by (vm_compute; reflexivity).
  split; [exact Hnew|].
  destruct (C7_target_paths Demo.cluster Demo.two_targets Demo.cluster_config "/d"
              [AStr "onset"; AStr "pitch"] train_split Hnew)
    as (paths & Hpaths & Hlen & Hjoin & _).
  - vm_compute. reflexivity.
  - reflexivity.
  - exists paths. split; [exact Hpaths|]. split; [exact Hlen|].
    apply (Hjoin 1%nat (AStr "pitch")). reflexivity.
Defined.

(** ** Model selection *)

Section Dispatch.

Context `{Collaborators}.

Lemma multitask_of_list (config : Config.t) (ts : list Atom) :
  Config.targets config = VList ts ->
  Config.multitask config = Ok (1 <? Z.of_nat (length ts)).
Proof. intros Hts. unfold Config.multitask. by rewrite Hts. Qed.

(** C3. With a truthy [checkpoint_path] and a non-empty [conditioning]
    list the dispatch raises [NotImplementedError], with the multitask
    message when there are two targets or more and with the single-task
    message otherwise; the process state, and with it the record of
    collaborator calls, is left as it was: no loader is called. *)
Theorem C3_conditioning_not_implemented
    (config : Config.t) (train_dataset : Dataset) (w : World)
    (ts : list Atom) (c : Atom) (cs : list Atom) :
  py_bool (Config.checkpoint_path config) = true ->
  Config.conditioning config = VList (c :: cs) ->
  Config.targets config = VList ts ->
  select_model config train_dataset w =
    (Raise (NotImplementedError
              (if 1 <? Z.of_nat (length ts)
               then "Conditioning is not yet implemented for multitask training"
               else "Conditioning is not yet implemented for single-task training")),
     w).
Proof.
  intros Hckpt Hcond Hts. unfold select_model.
  rewrite Hckpt, (multitask_of_list _ _ Hts), Hcond.
  destruct (1 <? Z.of_nat (length ts)); reflexivity.
Qed.

Lemma get_dataset_Ok (config : Config.t) (split : Split) (w w' : World) (ds : Dataset) :
  get_dataset config split w = (Ok ds, w') ->
  exists (dir events_path : string) (label_paths : list string),
    split_dir config split = Ok dir /\
    os_path_join (VStr dir) [VStr "events.h5"] = Ok events_path /\
    Config.target_paths config split = Ok label_paths /\
    HDF5Dataset events_path label_paths = Ok ds /\
    w' = logged (EvHDF5Dataset events_path label_paths) w.
Proof.
  unfold get_dataset. intros Hg.
  destruct (split_dir config split) as [dir|e] eqn:Hdir; [|discriminate].
  rewrite run_bind_lift_Ok in Hg.
  destruct (os_path_join (VStr dir) [VStr "events.h5"]) as [events_path|e] eqn:Hev;
    [|discriminate].
  rewrite run_bind_lift_Ok in Hg.
  destruct (Config.target_paths config split) as [label_paths|e] eqn:Hpaths;
    [|discriminate].
  rewrite run_bind_lift_Ok, call_eq in Hg.
  injection Hg as Hds Hw. exists dir, events_path, label_paths.
  repeat split; [exact Hev|exact Hds|symmetry; exact Hw].
Qed.

(** C4. Take a constructed [Config] with a truthy [checkpoint_path] and
    an empty [conditioning] list, and the train handle [get_dataset]
    built for it.  The handle was built over one label path per target,
    in target order.  With two targets or more the dispatch calls the
    multitask loader with [num_labels] the handle's [vocab_sizes]; with
    exactly one target, which is the case when [targets] was given as a
    bare string, it calls the single-task loader with [num_labels] the
    first entry of [vocab_sizes].  In both cases the loader gets the
    checkpoint path and the checkpoint type "musicbert", and its result
    is the result of the dispatch. *)
Theorem C4_loader_selection
    (w0 w w' : World) (kwargs : gmap string PyVal) (config : Config.t)
    (train_dataset : Dataset) :
  Config.new w0 kwargs = Ok config ->
  py_bool (Config.checkpoint_path config) = true ->
  Config.conditioning config = VList [] ->
  get_dataset config train_split w = (Ok train_dataset, w') ->
  exists ts : list Atom,
    Config.targets config = VList ts /\
    (forall s, kwargs !! "targets" = Some (VStr s) -> ts = [AStr s]) /\
    (exists (events_path : string) (label_paths : list string),
        Config.target_paths config train_split = Ok label_paths /\
        length label_paths = length ts /\
        HDF5Dataset events_path label_paths = Ok train_dataset) /\
    ((1 < length ts)%nat ->
     select_model config train_dataset w' =
       call (EvLoadMultitask (Config.checkpoint_path config) "musicbert"
               (vocab_sizes train_dataset))
            (load_musicbert_multitask_token_classifier_from_fairseq_checkpoint
               (Config.checkpoint_path config) "musicbert" (vocab_sizes train_dataset))
            w') /\
    (length ts = 1%nat ->
     forall (n : Z) (rest : list Z),
       vocab_sizes train_dataset = n :: rest ->
       select_model config train_dataset w' =
         call (EvLoadSingle (Config.checkpoint_path config) "musicbert" n)
              (load_musicbert_token_classifier_from_fairseq_checkpoint
                 (Config.checkpoint_path config) "musicbert" n)
              w').
Proof.
  intros Hnew Hckpt Hcond Hget.
  destruct (get_dataset_Ok _ _ _ _ _ Hget) as (dir & ev & paths & _ & _ & Hpaths & Hds & _).
  destruct (new_Ok _ _ _ Hnew) as (self & Hi & Hp).
  destruct (init_Ok _ _ _ Hi) as (_ & _ & _ & _ & Hkt & _).
  destruct (post_init_Ok _ _ _ Hp) as (_ & _ & _ & _ & Ht & _).
  assert (Hlist : exists ts, Config.targets config = VList ts /\
                             forall s, Config.targets self = VStr s -> ts = [AStr s]).
  { unfold Config.target_paths in Hpaths. rewrite Ht in *.
    destruct (Config.targets self) as [[| | | |s]|ts]; try discriminate.
    - exists [AStr s]. split; [reflexivity|]. intros s' Hs. by injection Hs as ->.
    - exists ts. split; [reflexivity|]. discriminate. }
  destruct Hlist as (ts & Hts & Hbare). exists ts.
  split; [exact Hts|]. split.
  { intros s Hs. apply Hbare. rewrite Hs in Hkt. by injection Hkt as <-. }
  split.
  { exists ev, paths. split; [exact Hpaths|]. split; [|exact Hds].
    unfold Config.target_paths in Hpaths. rewrite Hts in Hpaths. simpl in Hpaths.
    by apply res_map_length in Hpaths. }
  unfold select_model. rewrite Hckpt, (multitask_of_list _ _ Hts), Hcond. simpl.
  split.
  - intros Hlen. destruct (Z.ltb_spec 1 (Z.of_nat (length ts))); [reflexivity|lia].
  - intros Hlen n rest Hsizes. rewrite Hlen, Hsizes. reflexivity.
Qed.

End Dispatch.

(** ** Telemetry and the training arguments *)

Lemma setup_wandb_cases (config : Config.t) (w : World) :
  (exists e, setup_wandb config w = (Raise e, w)) \/
  (exists w', setup_wandb config w = (Ok tt, w') /\ trace w' = trace w /\
              environ w' !! "WANDB_PROJECT" =
                match Config.wandb_project config with
                | VStr name => if py_bool (VStr name) then Some name else None
                | _ => None
                end).
Proof.
  unfold setup_wandb, environ_setitem, environ_pop.
  destruct (py_bool (Config.wandb_project config)) eqn:Hb.
  - destruct (Config.wandb_project config) as [[| | | |name]|items]; eauto.
    destruct (has_nul name); [eauto|]. right. eexists. split; [reflexivity|].
    split; [reflexivity|]. rewrite Hb. apply lookup_insert_eq.
  - right. eexists. split; [reflexivity|]. split; [reflexivity|].
    destruct (Config.wandb_project config) as [[| | | |name]|items];
      try apply lookup_delete_eq.
    rewrite Hb. apply lookup_delete_eq.
Qed.

Lemma final_training_kwargs_Ok
    (config : Config.t) (training_kwargs bundle : gmap string PyVal) :
  final_training_kwargs config training_kwargs = Ok bundle ->
  exists defaults : gmap string PyVal,
    default_training_kwargs config = Ok defaults /\
    bundle =
      <["report_to" := if py_bool (Config.wandb_project config)
                       then VStr "wandb" else VNone]>
        (dict_or defaults training_kwargs).
Proof.
  unfold final_training_kwargs. intros Hf.
  destruct (default_training_kwargs config) as [defaults|e]; [|discriminate].
  exists defaults. split; [reflexivity|]. simpl in Hf.
  destruct (py_bool (Config.wandb_project config)); by injection Hf as <-.
Qed.


(** ** The command-line split *)

Lemma config_kwargs_lookup (conf : gmap string PyVal) (k : string) :
  config_kwargs_of conf !! k = if bool_decide (k ∈ config_fields) then conf !! k else None.
Proof.
  unfold config_kwargs_of. case_bool_decide as Hk.
  - destruct (conf !! k) as [v|] eqn:Hc.
    + apply map_lookup_filter_Some. by split.
    + apply map_lookup_filter_None. left. exact Hc.
  - apply map_lookup_filter_None. right. intros v _. exact Hk.
Qed.

Lemma training_kwargs_lookup (conf : gmap string PyVal) (k : string) :
  training_kwargs_of conf !! k = if bool_decide (k ∈ config_fields) then None else conf !! k.
Proof.
  unfold training_kwargs_of. case_bool_decide as Hk.
  - apply map_lookup_filter_None. right. intros v _ Hn. by apply Hn.
  - destruct (conf !! k) as [v|] eqn:Hc.
    + apply map_lookup_filter_Some. by split.
    + apply map_lookup_filter_None. left. exact Hc.
Qed.

Section CommandLine.

Context `{Collaborators}.

Lemma get_config_and_training_kwargs_eq (conf : gmap string PyVal) (w : World) :
  get_config_and_training_kwargs conf w =
    match Config.new w (config_kwargs_of conf) with
    | Ok config => (Ok (config, training_kwargs_of conf), w)
    | Raise e => (Raise e, w)
    end.
Proof.
  unfold get_config_and_training_kwargs.
  change ((get_world ≫= _) w) with
    ((lift (Config.new w (config_kwargs_of conf)) ≫=
        fun config => mret (config, training_kwargs_of conf)) w).
  by destruct (Config.new w (config_kwargs_of conf)).
Qed.

(** C1, as the script has it.  The constructor of [Config] receives only
    keys that are dataclass fields.  Every other key of the command line,
    [report_to] excepted, is in the training arguments with its
    command-line value, whatever the defaults hold for it.  [report_to]
    is written after the merge: it is "wandb" when a tracking project is
    configured and [None] otherwise, whatever the command line gave. *)
Theorem C1_pass_through_except_report_to
    (conf : gmap string PyVal) (w w' : World)
    (config : Config.t) (training_kwargs : gmap string PyVal) :
  get_config_and_training_kwargs conf w = (Ok (config, training_kwargs), w') ->
  Config.new w (config_kwargs_of conf) = Ok config /\
  (forall k : string, k ∉ config_fields -> config_kwargs_of conf !! k = None) /\
  (forall bundle : gmap string PyVal,
      final_training_kwargs config training_kwargs = Ok bundle ->
      (forall (k : string) (v : PyVal),
          conf !! k = Some v -> k ∉ config_fields -> k <> "report_to" ->
          bundle !! k = Some v) /\
      bundle !! "report_to" =
        Some (if py_bool (Config.wandb_project config) then VStr "wandb" else VNone)).
Proof.
  rewrite get_config_and_training_kwargs_eq. intros Hg.
  destruct (Config.new w (config_kwargs_of conf)) as [config'|e]; [|discriminate].
  injection Hg as -> <- _. split; [reflexivity|]. split.
  - intros k Hk. rewrite config_kwargs_lookup. by case_bool_decide.
  - intros bundle Hb.
    destruct (final_training_kwargs_Ok _ _ _ Hb) as (defaults & _ & ->). split.
    + intros k v Hc Hk Hr. rewrite lookup_insert_ne by congruence.
      unfold dict_or. apply lookup_union_Some_l.
      rewrite training_kwargs_lookup. by case_bool_decide.
    + apply lookup_insert_eq.
Qed.

End CommandLine.

(** ** The run as a whole *)

Section Run.

Context `{Collaborators}.

Lemma get_dataset_cases (config : Config.t) (split : Split) (w : World) :
  (exists e, get_dataset config split w = (Raise e, w)) \/
  (exists events_path label_paths,
      get_dataset config split w =
        (HDF5Dataset events_path label_paths,
         logged (EvHDF5Dataset events_path label_paths) w)).
Proof.
  unfold get_dataset.
  destruct (split_dir config split) as [dir|e]; [|left; by exists e].
  rewrite run_bind_lift_Ok.
  destruct (os_path_join (VStr dir) [VStr "events.h5"]) as [events_path|e];
    [|left; by exists e].
  rewrite run_bind_lift_Ok.
  destruct (Config.target_paths config split) as [label_paths|e]; [|left; by exists e].
  rewrite run_bind_lift_Ok, call_eq. right. by exists events_path, label_paths.
Qed.

Lemma select_model_no_checkpoint (config : Config.t) (train_dataset : Dataset) (w : World) :
  py_bool (Config.checkpoint_path config) = false ->
  select_model config train_dataset w =
    (Raise (ValueError "checkpoint_path must be provided"), w).
Proof. intros Hckpt. unfold select_model. by rewrite Hckpt. Qed.

(** The script up to the dispatch. *)
Lemma main_until_dispatch
    (conf : gmap string PyVal) (w w1 w2 w3 : World) (config : Config.t)
    (train_dataset valid_dataset : Dataset) :
  Config.new w (config_kwargs_of conf) = Ok config ->
  setup_wandb config w = (Ok tt, w1) ->
  get_dataset config train_split w1 = (Ok train_dataset, w2) ->
  get_dataset config valid_split w2 = (Ok valid_dataset, w3) ->
  main conf w =
    match select_model config train_dataset w3 with
    | (Ok model, w4) =>
        (model ← call (EvFreezeLayers (Config.freeze_layers config))
                      (freeze_layers model (Config.freeze_layers config));
         training_kwargs ← lift (final_training_kwargs config (training_kwargs_of conf));
         training_args ← call (EvTrainingArguments training_kwargs)
                              (TrainingArguments training_kwargs);
         compute_metrics_fn ← lift (select_metrics config);
         multitask ← lift (Config.multitask config);
         trainer ← call (EvTrainer multitask compute_metrics_fn)
                        (Trainer model training_args multitask train_dataset
                           valid_dataset compute_metrics_fn);
         call EvTrain (train trainer)) w4
    | (Raise e, w4) => (Raise e, w4)
    end.
Proof.
  intros Hnew Hsetup Htrain Hvalid. unfold main.
  unfold mbind at 1, Run_bind, run_bind.
  rewrite get_config_and_training_kwargs_eq, Hnew.
  unfold mbind at 1, Run_bind, run_bind. rewrite Hsetup.
  unfold mbind at 1, Run_bind, run_bind. rewrite Htrain.
  unfold mbind at 1, Run_bind, run_bind. rewrite Hvalid.
  unfold mbind at 1, Run_bind, run_bind.
  destruct (select_model config train_dataset w3) as [[model|e] w4]; reflexivity.
Qed.

Lemma main_no_checkpoint
    (conf : gmap string PyVal) (w w1 w2 w3 : World) (config : Config.t)
    (train_dataset valid_dataset : Dataset) :
  Config.new w (config_kwargs_of conf) = Ok config ->
  py_bool (Config.checkpoint_path config) = false ->
  setup_wandb config w = (Ok tt, w1) ->
  get_dataset config train_split w1 = (Ok train_dataset, w2) ->
  get_dataset config valid_split w2 = (Ok valid_dataset, w3) ->
  main conf w = (Raise (ValueError "checkpoint_path must be provided"), w3).
Proof.
  intros Hnew Hckpt Hsetup Htrain Hvalid.
  rewrite (main_until_dispatch _ _ _ _ _ _ _ _ Hnew Hsetup Htrain Hvalid).
  by rewrite select_model_no_checkpoint.
Qed.

End Run.

Lemma new_Ok_iff (w : World) (kwargs : gmap string PyVal) :
  (exists cfg, Config.new w kwargs = Ok cfg) <-> accepted kwargs.
Proof.
  unfold accepted. split.
  - intros [cfg Hnew]. destruct (new_Ok _ _ _ Hnew) as (self & Hi & Hp).
    destruct (init_Ok _ _ _ Hi) as (Hk & Hd & Ho & Hc & Ht & _ & Hn & Hm & _).
    repeat split; eauto.
    intros [Hn' Hm']. rewrite Hn' in Hn. rewrite Hm' in Hm.
    unfold Config.__post_init__ in Hp. rewrite Hn, Hm in Hp. discriminate.
  - intros (Hk & [d Hd] & [o Ho] & [c Hc] & [t Ht] & Hnm).
    unfold Config.new, Config.__init__, Config.required.
    rewrite (bool_decide_eq_true_2 _ Hk), Hd, Ho, Hc, Ht. simpl.
    unfold Config.__post_init__. simpl.
    destruct (kwargs !! "num_epochs") as [[[| | | |]|]|]; simpl; eauto.
    destruct (kwargs !! "max_steps") as [[[| | | |]|]|]; simpl; eauto.
    exfalso. by apply Hnm.
Qed.

Lemma new_checkpoint_path (w : World) (conf : gmap string PyVal) (config : Config.t) :
  Config.new w (config_kwargs_of conf) = Ok config ->
  conf !! "checkpoint_path" = Some (Config.checkpoint_path config).
Proof.
  intros Hnew. destruct (new_Ok _ _ _ Hnew) as (self & Hi & Hp).
  destruct (init_Ok _ _ _ Hi) as (_ & _ & _ & Hc & _).
  destruct (post_init_Ok _ _ _ Hp) as (_ & _ & Hc' & _).
  rewrite config_kwargs_lookup in Hc. case_bool_decide; [|discriminate].
  by rewrite Hc'.
Qed.

Section Checkpoint.

Context `{Collaborators}.

(** C2, as the script has it.  Construction rejects a missing
    [checkpoint_path] and nothing but a missing one: the run then ends
    with the constructor's [TypeError] before anything else has happened.
    A [checkpoint_path] that is present but empty (or otherwise falsy) is
    stored as it is.  The run still always ends with an exception and
    never calls a model loader: the only collaborator calls are dataset
    constructions.  When the telemetry step and both dataset
    constructions succeed, the exception is the dispatch's
    [ValueError("checkpoint_path must be provided")]. *)
Theorem C2_checkpoint_path_required (conf : gmap string PyVal) (w : World) :
  ((exists cfg, Config.new w (config_kwargs_of conf) = Ok cfg) <->
   accepted (config_kwargs_of conf)) /\
  (conf !! "checkpoint_path" = None -> main conf w = (Raise TypeError, w)) /\
  (forall v : PyVal,
      conf !! "checkpoint_path" = Some v -> py_bool v = false ->
      (forall config,
          Config.new w (config_kwargs_of conf) = Ok config ->
          Config.checkpoint_path config = v) /\
      (exists (e : PyExc) (w' : World) (evs : list Event),
          main conf w = (Raise e, w') /\
          trace w' = (trace w ++ evs)%list /\
          Forall is_dataset_event evs) /\
      (forall config w1 w2 w3 train_dataset valid_dataset,
          Config.new w (config_kwargs_of conf) = Ok config ->
          setup_wandb config w = (Ok tt, w1) ->
          get_dataset config train_split w1 = (Ok train_dataset, w2) ->
          get_dataset config valid_split w2 = (Ok valid_dataset, w3) ->
          main conf w = (Raise (ValueError "checkpoint_path must be provided"), w3))).
Proof.
  split; [apply new_Ok_iff|]. split.
  - intros Hnone. unfold main. unfold mbind at 1, Run_bind, run_bind.
    rewrite get_config_and_training_kwargs_eq.
    unfold Config.new, Config.__init__, Config.required.
    rewrite (config_kwargs_lookup conf "checkpoint_path"), Hnone.
    case_bool_decide; [|reflexivity].
    destruct (config_kwargs_of conf !! "data_dir"); [|reflexivity].
    destruct (config_kwargs_of conf !! "output_dir_base"); [|reflexivity].
    by case_bool_decide.
  - intros v Hv Hfalsy.
    assert (Hstored : forall config,
               Config.new w (config_kwargs_of conf) = Ok config ->
               Config.checkpoint_path config = v).
    { intros config Hnew. apply new_checkpoint_path in Hnew. congruence. }
    split; [exact Hstored|]. split.
    + unfold main. unfold mbind at 1, Run_bind, run_bind.
      rewrite get_config_and_training_kwargs_eq.
      destruct (Config.new w (config_kwargs_of conf)) as [config|e] eqn:Hnew.
      2:{ exists e, w, []. by rewrite app_nil_r. }
      unfold mbind at 1, Run_bind, run_bind.
      destruct (setup_wandb_cases config w) as [[e ->]|(w1 & -> & Htr1 & _)].
      { exists e, w, []. by rewrite app_nil_r. }
      rewrite <- Htr1. unfold mbind at 1, Run_bind, run_bind.
      destruct (get_dataset_cases config train_split w1) as [[e ->]|(ev1 & ps1 & ->)].
      { exists e, w1, []. by rewrite app_nil_r. }
      destruct (HDF5Dataset ev1 ps1) as [train_dataset|e].
      2:{ exists e, (logged (EvHDF5Dataset ev1 ps1) w1), [EvHDF5Dataset ev1 ps1].
          repeat split. by repeat constructor. }
      unfold mbind at 1, Run_bind, run_bind.
      destruct (get_dataset_cases config valid_split (logged (EvHDF5Dataset ev1 ps1) w1))
        as [[e ->]|(ev2 & ps2 & ->)].
      { exists e, (logged (EvHDF5Dataset ev1 ps1) w1), [EvHDF5Dataset ev1 ps1].
        repeat split. by repeat constructor. }
      destruct (HDF5Dataset ev2 ps2) as [valid_dataset|e].
      2:{ exists e, (logged (EvHDF5Dataset ev2 ps2) (logged (EvHDF5Dataset ev1 ps1) w1)),
            [EvHDF5Dataset ev1 ps1; EvHDF5Dataset ev2 ps2].
          split; [reflexivity|]. split; [|by repeat constructor].
          simpl. by rewrite <- app_assoc. }
      unfold mbind at 1, Run_bind, run_bind.
      rewrite select_model_no_checkpoint by (by rewrite (Hstored config)).
      exists (ValueError "checkpoint_path must be provided"),
        (logged (EvHDF5Dataset ev2 ps2) (logged (EvHDF5Dataset ev1 ps1) w1)),
        [EvHDF5Dataset ev1 ps1; EvHDF5Dataset ev2 ps2].
      split; [reflexivity|]. split; [|by repeat constructor].
      simpl. by rewrite <- app_assoc.
    + intros config w1 w2 w3 tds vds Hnew Hsetup Htrain Hvalid.
      eapply main_no_checkpoint; eauto. by rewrite (Hstored config).
Qed.

End Checkpoint.

Section NotAtomic.

Context `{Collaborators}.

(** C10. On the path where a falsy [checkpoint_path] reaches the
    dispatch, the [ValueError] comes after the telemetry step and after
    both dataset constructions, and the state they left is the state the
    run ends in: [WANDB_PROJECT] is set to the project name, or removed
    when no project is configured, and the record of collaborator calls
    has grown by the construction of the train handle and then of the
    valid handle.  Nothing is undone. *)
Theorem C10_checkpoint_error_keeps_side_effects
    (conf : gmap string PyVal) (w w1 w2 w3 : World) (config : Config.t)
    (train_dataset valid_dataset : Dataset) :
  Config.new w (config_kwargs_of conf) = Ok config ->
  py_bool (Config.checkpoint_path config) = false ->
  setup_wandb config w = (Ok tt, w1) ->
  get_dataset config train_split w1 = (Ok train_dataset, w2) ->
  get_dataset config valid_split w2 = (Ok valid_dataset, w3) ->
  main conf w = (Raise (ValueError "checkpoint_path must be provided"), w3) /\
  (forall name, Config.wandb_project config = VStr name -> name <> "" ->
                environ w3 !! "WANDB_PROJECT" = Some name) /\
  (py_bool (Config.wandb_project config) = false ->
   environ w3 !! "WANDB_PROJECT" = None) /\
  (exists events1 labels1 events2 labels2,
      HDF5Dataset events1 labels1 = Ok train_dataset /\
      HDF5Dataset events2 labels2 = Ok valid_dataset /\
      trace w3 =
        (trace w ++ [EvHDF5Dataset events1 labels1; EvHDF5Dataset events2 labels2])%list) /\
  w3 <> w.
Proof.
  intros Hnew Hckpt Hsetup Htrain Hvalid.
  split; [by eapply main_no_checkpoint|].
  destruct (get_dataset_Ok _ _ _ _ _ Htrain) as (_ & e1 & p1 & _ & _ & _ & Hd1 & ->).
  destruct (get_dataset_Ok _ _ _ _ _ Hvalid) as (_ & e2 & p2 & _ & _ & _ & Hd2 & ->).
  destruct (setup_wandb_cases config w) as [[e He]|(w1' & He & Htr & Henv)];
    rewrite He in Hsetup; [discriminate|].
  injection Hsetup as ->.
  assert (Htrace : trace (logged (EvHDF5Dataset e2 p2) (logged (EvHDF5Dataset e1 p1) w1)) =
                   (trace w ++ [EvHDF5Dataset e1 p1; EvHDF5Dataset e2 p2])%list).
  { simpl. by rewrite Htr, <- app_assoc. }
  split; [|split; [|split]].
  - intros name Hname Hne. simpl. rewrite Henv, Hname. simpl.
    by destruct (String.eqb_spec name "").
  - intros Hfalsy. simpl. rewrite Henv.
    destruct (Config.wandb_project config) as [[| | | |name]|items]; try reflexivity.
    by rewrite Hfalsy.
  - exists e1, p1, e2, p2. by repeat split.
  - intros Heq. rewrite Heq in Htrace.
    apply (f_equal length) in Htrace. rewrite length_app in Htrace. simpl in Htrace. lia.
Qed.

End NotAtomic.

Lemma C10_witness :
  main (H := Demo.collaborators) Demo.no_checkpoint Demo.laptop =
    (Raise (ValueError "checkpoint_path must be provided"), Demo.laptop_with_datasets) /\
  environ Demo.laptop !! "WANDB_PROJECT" = Some "stale" /\
  environ Demo.laptop_with_datasets !! "WANDB_PROJECT" = None.
Proof.
  pose proof (C10_checkpoint_error_keeps_side_effects (H := Demo.collaborators)
                Demo.no_checkpoint Demo.laptop
                (mkWorld ∅ "1730736000.5" "/home/u/tmp/musicbert_hf_logs" [])
                (mkWorld ∅ "1730736000.5" "/home/u/tmp/musicbert_hf_logs"
                   [EvHDF5Dataset "/d/train/events.h5" ["/d/train/onset.h5"]])
                Demo.laptop_with_datasets
                {| Config.data_dir := VStr "/d";
                   Config.output_dir_base := VStr "/out";
                   Config.checkpoint_path := VStr "";
                   Config.targets := VList [AStr "onset"];
                   Config.conditioning := VList [];
                   Config.log_dir := VStr "/home/u/tmp/musicbert_hf_logs";
                   Config.num_epochs := VInt 0;
                   Config.batch_size := VInt 4;
                   Config.learning_rate := VFloat "0.00025";
                   Config.warmup_steps := VInt 0;
                   Config.max_steps := VInt (-1);
                   Config.wandb_project := VNone;
                   Config.freeze_layers := VNone;
                   Config._job_id := Some "1730736000.5" |}
                [17] [17]) as Hrun.
  destruct Hrun as (Hmain & _ & Henv & _); [vm_compute; reflexivity ..|].
  split; [exact Hmain|]. split; [vm_compute; reflexivity|].
  apply Henv. reflexivity.
Defined.

(** ** The script on examples *)

(** C1 as stated fails on [report_to]: given [report_to=tensorboard] on the
    command line, a key that is no field of [Config], the run on [laptop]
    calls [TrainingArguments] once, with [report_to = None]. *)
Lemma C1_counterexample :
  Demo.with_report_to !! "report_to" = Some (VStr "tensorboard") /\
  ("report_to" ∉ config_fields) /\
  exists w' : World,
    main (H := Demo.collaborators) Demo.with_report_to Demo.laptop = (Ok tt, w') /\
    ((fun kwargs : gmap string PyVal => kwargs !! "report_to")
       <$> training_arguments_in (trace w')) = [Some VNone].
Proof.
  split; [vm_compute; reflexivity|]. split.
  - apply (bool_decide_eq_false_1 ("report_to" ∈ config_fields)). vm_compute. reflexivity.
  - eexists. split; vm_compute; reflexivity.
Qed.

Lemma C1_witness :
  config_kwargs_of Demo.with_report_to !! "logging_steps" = None /\
  exists bundle : gmap string PyVal,
    final_training_kwargs Demo.one_target_config (training_kwargs_of Demo.with_report_to)
      = Ok bundle /\
    bundle !! "logging_steps" = Some (VInt 10) /\
    bundle !! "report_to" = Some VNone.
Proof.
  assert (Hfield : "logging_steps" ∉ config_fields)
    by (apply (bool_decide_eq_false_1 ("logging_steps" ∈ config_fields));
        vm_compute; reflexivity).
  destruct (C1_pass_through_except_report_to Demo.with_report_to Demo.laptop Demo.laptop
              Demo.one_target_config (training_kwargs_of Demo.with_report_to))
    as (_ & Hleak & Hbundle); [vm_compute; reflexivity|].
  split; [exact (Hleak "logging_steps" Hfield)|].
  assert (Hfinal : exists bundle,
             final_training_kwargs Demo.one_target_config
               (training_kwargs_of Demo.with_report_to) = Ok bundle)
    by (eexists; vm_compute; reflexivity).
  destruct Hfinal as [bundle Hfinal]. exists bundle. split; [exact Hfinal|].
  destruct (Hbundle bundle Hfinal) as [Hpass Hreport]. split; [|exact Hreport].
  apply Hpass; [vm_compute; reflexivity | exact Hfield | discriminate].
Defined.

(** C2 as stated fails on the empty string: [Config] is constructed, with
    [checkpoint_path] the empty string; the [ValueError] comes only at the
    dispatch, when the stale tracking project has been removed from the
    environment and both dataset handles have been built; and where the
    dataset files are missing the run ends with the dataset's error
    instead. *)
Lemma C2_counterexample :
  Demo.no_checkpoint !! "checkpoint_path" = Some (VStr "") /\
  (exists cfg : Config.t,
      Config.new Demo.laptop (config_kwargs_of Demo.no_checkpoint) = Ok cfg /\
      Config.checkpoint_path cfg = VStr "") /\
  main (H := Demo.collaborators) Demo.no_checkpoint Demo.laptop =
    (Raise (ValueError "checkpoint_path must be provided"), Demo.laptop_with_datasets) /\
  Demo.laptop_with_datasets <> Demo.laptop /\
  main (H := Demo.no_data) Demo.no_checkpoint Demo.laptop =
    (Raise (CollaboratorError "No such file or directory"), Demo.laptop_with_train_attempt).
Proof.
  split; [vm_compute; reflexivity|]. split.
  { eexists. split; vm_compute; reflexivity. }
  split; [vm_compute; reflexivity|]. split; [discriminate|].
  vm_compute. reflexivity.
Qed.

Lemma C2_witness :
  main (H := Demo.collaborators) (delete "checkpoint_path" Demo.one_target) Demo.laptop =
    (Raise TypeError, Demo.laptop) /\
  exists (e : PyExc) (w' : World) (evs : list Event),
    main (H := Demo.no_data) Demo.no_checkpoint Demo.laptop = (Raise e, w') /\
    trace w' = (trace Demo.laptop ++ evs)%list /\
    Forall is_dataset_event evs.
Proof.
  split.
  - apply (C2_checkpoint_path_required (H := Demo.collaborators)).
    vm_compute. reflexivity.
  - apply (proj2 (proj2 (C2_checkpoint_path_required (H := Demo.no_data)
                           Demo.no_checkpoint Demo.laptop)) (VStr ""));
      vm_compute; reflexivity.
Defined.

Lemma C3_witness :
  Config.new Demo.laptop Demo.with_conditioning = Ok Demo.conditioned_config /\
  select_model (H := Demo.collaborators) Demo.conditioned_config [17] Demo.laptop =
    (Raise (NotImplementedError
              "Conditioning is not yet implemented for single-task training"),
     Demo.laptop).
Proof.
  split; [vm_compute; reflexivity|].
  apply (C3_conditioning_not_implemented (H := Demo.collaborators)
           Demo.conditioned_config [17] Demo.laptop [AStr "onset"] (AStr "key") []);
    reflexivity.
Defined.

Lemma C4_witness :
  Config.new Demo.cluster Demo.two_targets = Ok Demo.cluster_config /\
  get_dataset (H := Demo.collaborators) Demo.cluster_config train_split Demo.cluster =
    (Ok [17; 17],
     logged (EvHDF5Dataset "/d/train/events.h5" ["/d/train/onset.h5"; "/d/train/pitch.h5"])
       Demo.cluster) /\
  fst (select_model (H := Demo.collaborators) Demo.cluster_config [17; 17]
         (logged (EvHDF5Dataset "/d/train/events.h5"
                    ["/d/train/onset.h5"; "/d/train/pitch.h5"]) Demo.cluster))
    = Ok [17; 17].
Proof.
  assert (Hnew : Config.new Demo.cluster Demo.two_targets = Ok Demo.cluster_config)
    by (vm_compute; reflexivity).
  assert (Hget : get_dataset (H := Demo.collaborators) Demo.cluster_config train_split
                   Demo.cluster =
                 (Ok [17; 17],
                  logged (EvHDF5Dataset "/d/train/events.h5"
                            ["/d/train/onset.h5"; "/d/train/pitch.h5"]) Demo.cluster))
    by (vm_compute; reflexivity).
  split; [exact Hnew|]. split; [exact Hget|].
  destruct (C4_loader_selection (H := Demo.collaborators) _ _ _ _ _ _ Hnew
              eq_refl eq_refl Hget) as (ts & Hts & _ & _ & Hmulti & _).
  injection Hts as <-. rewrite Hmulti; [reflexivity|simpl; lia].
Defined.



(** * Further properties of the script *)

(** ** The configuration *)

(** X1. [multitask] of a constructed [Config]: a bare string target is one
    target, however long the string; a list is multitask exactly when it
    has more than one element; anything else has no length. *)
Theorem X1_multitask_of_constructed
    (w : World) (kwargs : gmap string PyVal) (cfg : Config.t) :
  Config.new w kwargs = Ok cfg ->
  (forall s, kwargs !! "targets" = Some (VStr s) -> Config.multitask cfg = Ok false) /\
  (forall l, kwargs !! "targets" = Some (VList l) ->
             Config.multitask cfg = Ok (bool_decide (1 < length l)%nat)) /\
  (forall a, kwargs !! "targets" = Some (VAtom a) -> isinstance_str (VAtom a) = false ->
             Config.multitask cfg = Raise TypeError).
Proof.
  intros Hnew. destruct (new_Ok _ _ _ Hnew) as (self & Hi & Hp).
  destruct (init_Ok _ _ _ Hi) as (_ & _ & _ & _ & Ht & _).
  destruct (post_init_Ok _ _ _ Hp) as (_ & _ & _ & _ & Ht' & _).
  unfold Config.multitask. rewrite Ht'. clear Ht'.
  split; [|split].
  - intros s Hs. rewrite Hs in Ht. by injection Ht as <-.
  - intros l Hl. rewrite Hl in Ht. injection Ht as <-. simpl. f_equal.
    case_bool_decide; [apply Z.ltb_lt|apply Z.ltb_ge]; lia.
  - intros a Ha Hstr. rewrite Ha in Ht. injection Ht as <-.
    by destruct a.
Qed.

Lemma X1_witness :
  Config.new Demo.laptop Demo.one_target = Ok Demo.one_target_config /\
  Config.multitask Demo.one_target_config = Ok false.
Proof.
  assert (Hnew : Config.new Demo.laptop Demo.one_target = Ok Demo.one_target_config)
    by (vm_compute; reflexivity).
  split; [exact Hnew|].
  apply (proj1 (X1_multitask_of_constructed _ _ _ Hnew) "onset").
  vm_compute. reflexivity.
Defined.

(** X2. The command line is split in two: every key goes to exactly one
    of the constructor arguments and the pass-through options, with its
    value, according to whether it is a dataclass field; nothing is lost
    and nothing is duplicated. *)
Theorem X2_command_line_partition (conf : gmap string PyVal) :
  config_kwargs_of conf ∪ training_kwargs_of conf = conf /\
  config_kwargs_of conf ##ₘ training_kwargs_of conf /\
  dom (config_kwargs_of conf) = dom conf ∩ config_fields /\
  dom (training_kwargs_of conf) = dom conf ∖ config_fields.
Proof.
  split; [|split; [|split]].
  - apply map_eq. intros k. rewrite lookup_union.
    rewrite config_kwargs_lookup, training_kwargs_lookup.
    case_bool_decide; by destruct (conf !! k).
  - apply map_disjoint_spec. intros k v1 v2.
    rewrite config_kwargs_lookup, training_kwargs_lookup.
    case_bool_decide; discriminate.
  - apply set_eq. intros k.
    rewrite elem_of_intersection, !elem_of_dom, config_kwargs_lookup.
    case_bool_decide as Hk; split.
    + by intros Hs.
    + by intros [Hs _].
    + intros Hs. by apply is_Some_None in Hs.
    + by intros [_ Hin].
  - apply set_eq. intros k.
    rewrite elem_of_difference, !elem_of_dom, training_kwargs_lookup.
    case_bool_decide as Hk; split.
    + intros Hs. by apply is_Some_None in Hs.
    + by intros [_ Hout].
    + by intros Hs.
    + by intros [Hs _].
Qed.

(** X3. The constructor fails in two ways only.  It raises [TypeError]
    exactly when a keyword is no dataclass field or one of [data_dir],
    [output_dir_base], [checkpoint_path], [targets] is missing; otherwise
    it raises the [AssertionError] of [__post_init__] or returns.  Which of
    the three happens does not depend on the environment or the clock. *)
Theorem X3_constructor_failures (w : World) (kwargs : gmap string PyVal) :
  (Config.new w kwargs = Raise TypeError <->
   ~ (map_Forall (fun k _ => k ∈ Config.__dataclass_fields__) kwargs /\
      is_Some (kwargs !! "data_dir") /\ is_Some (kwargs !! "output_dir_base") /\
      is_Some (kwargs !! "checkpoint_path") /\ is_Some (kwargs !! "targets"))) /\
  (forall e, Config.new w kwargs = Raise e ->
             e = TypeError \/
             e = AssertionError "Either num_epochs or max_steps must be provided") /\
  (forall w2 : World,
      match Config.new w kwargs, Config.new w2 kwargs with
      | Ok _, Ok _ => True
      | Raise e, Raise e2 => e = e2
      | _, _ => False
      end).
Proof.
  unfold Config.new, Config.__init__, Config.required.
  case_bool_decide as Hk.
  2:{ simpl. split; [|split].
      - split; [intros _ [? _]; contradiction|reflexivity].
      - intros e He. left. by injection He.
      - reflexivity. }
  destruct (kwargs !! "data_dir") as [dd|]; simpl.
  2:{ split; [|split].
      - split; [intros _ (_ & [? ?] & _); discriminate|reflexivity].
      - intros e He. left. by injection He.
      - reflexivity. }
  destruct (kwargs !! "output_dir_base") as [ob|]; simpl.
  2:{ split; [|split].
      - split; [intros _ (_ & _ & [? ?] & _); discriminate|reflexivity].
      - intros e He. left. by injection He.
      - reflexivity. }
  destruct (kwargs !! "checkpoint_path") as [cp|]; simpl.
  2:{ split; [|split].
      - split; [intros _ (_ & _ & _ & [? ?] & _); discriminate|reflexivity].
      - intros e He. left. by injection He.
      - reflexivity. }
  destruct (kwargs !! "targets") as [tg|]; simpl.
  2:{ split; [|split].
      - split; [intros _ (_ & _ & _ & _ & [? ?]); discriminate|reflexivity].
      - intros e He. left. by injection He.
      - reflexivity. }
  unfold Config.__post_init__. simpl.
  destruct (negb (is_None (default (VInt 0) (kwargs !! "num_epochs")))
            || negb (is_None (default (VInt (-1)) (kwargs !! "max_steps")))).
  - split; [|split].
    + split; [discriminate|]. intros Hn. exfalso. apply Hn. repeat split; eauto.
    + discriminate.
    + intros w2. exact I.
  - split; [|split].
    + split; [discriminate|]. intros Hn. exfalso. apply Hn. repeat split; eauto.
    + intros e He. right. by injection He.
    + reflexivity.
Qed.

(** ** Paths and dataset handles *)

Lemma endswith_sep_app (a b : string) :
  b <> "" -> endswith_sep (a +:+ b) = endswith_sep b.
Proof.
  intros Hb. induction a as [|c a IH]; [reflexivity|].
  change (String c a +:+ b) with (String c (a +:+ b)).
  destruct (a +:+ b) as [|c' s] eqn:Hab.
  - destruct a; [simpl in Hab; contradiction|discriminate].
  - rewrite <- IH. reflexivity.
Qed.

Lemma target_paths_of_list (config : Config.t) (root : string) (ts : list Atom)
    (split : Split) :
  Config.data_dir config = VStr root ->
  Config.targets config = VList ts ->
  Config.target_paths config split =
    Ok (map (fun t => join_strs root [split_name split; py_str t +:+ ".h5"]) ts).
Proof.
  intros Hroot Hts. unfold Config.target_paths. rewrite Hts, Hroot. simpl.
  apply res_map_Ok. intros t _.
  apply (os_path_join_strs root [split_name split; py_str t +:+ ".h5"]).
Qed.

Lemma split_dir_of_str (config : Config.t) (root : string) (split : Split) :
  Config.data_dir config = VStr root ->
  split_dir config split = Ok (join_strs root [split_name split]).
Proof.
  intros Hroot.
  destruct split; unfold split_dir, Config.train_dir, Config.valid_dir, Config.test_dir;
    rewrite Hroot; reflexivity.
Qed.

(** X4. Where [os.path.join] departs from writing the components with
    "/" between them.  A target whose name starts with "/" gets the path
    [<t>.h5], outside the data root, whatever the root and the split.  With
    an empty data root the path is relative, [<split>/<t>.h5].  With a
    data root that ends in "/" no second "/" is added. *)
Theorem X4_target_path_edge_cases
    (config : Config.t) (root : string) (ts : list Atom) (split : Split)
    (i : nat) (t : string) :
  Config.data_dir config = VStr root ->
  Config.targets config = VList ts ->
  ts !! i = Some (AStr t) ->
  exists paths : list string,
    Config.target_paths config split = Ok paths /\
    (startswith_sep t = true -> paths !! i = Some (t +:+ ".h5")) /\
    (startswith_sep t = false -> root = "" ->
     paths !! i = Some (split_name split +:+ "/" +:+ t +:+ ".h5")) /\
    (startswith_sep t = false -> endswith_sep root = true ->
     paths !! i = Some (root +:+ split_name split +:+ "/" +:+ t +:+ ".h5")).
Proof.
  intros Hroot Hts Hi. eexists. split; [by apply target_paths_of_list|].
  change (map ?f ts) with (f <$> ts). rewrite list_lookup_fmap, Hi. simpl.
  assert (Hsplit : startswith_sep (split_name split) = false) by (by destruct split).
  assert (Hsplit_end : endswith_sep (split_name split) = false) by (by destruct split).
  assert (Hsplit_ne : split_name split <> "") by (by destruct split).
  assert (Hstart : startswith_sep (t +:+ ".h5") = startswith_sep t) by (by destruct t).
  unfold join_strs. simpl. split; [|split].
  - intros Ht. f_equal. unfold join_step at 1. by rewrite Hstart, Ht.
  - intros Ht ->. f_equal. unfold join_step. rewrite Hstart, Ht, Hsplit.
    destruct split; reflexivity.
  - intros Ht Hend. f_equal. unfold join_step. rewrite Hstart, Ht, Hsplit, Hend.
    rewrite orb_true_r, (endswith_sep_app root _ Hsplit_ne), Hsplit_end, orb_false_r.
    destruct (String.eqb_spec (root +:+ split_name split) "") as [Hnil|_].
    + destruct root; [discriminate Hend|discriminate Hnil].
    + by rewrite !append_assoc.
Qed.

Lemma X4_witness :
  exists paths : list string,
    Config.target_paths
      {| Config.data_dir := VStr "/d";
         Config.output_dir_base := VStr "/out";
         Config.checkpoint_path := VStr "/ckpt";
         Config.targets := VList [AStr "onset"; AStr "/etc/pitch"];
         Config.conditioning := VList [];
         Config.log_dir := VStr "/logs";
         Config.num_epochs := VInt 0;
         Config.batch_size := VInt 4;
         Config.learning_rate := VFloat "0.00025";
         Config.warmup_steps := VInt 0;
         Config.max_steps := VInt (-1);
         Config.wandb_project := VNone;
         Config.freeze_layers := VNone;
         Config._job_id := Some "4242" |} valid_split = Ok paths /\
    paths !! 1%nat = Some "/etc/pitch.h5".
Proof.
  destruct (X4_target_path_edge_cases
              {| Config.data_dir := VStr "/d";
                 Config.output_dir_base := VStr "/out";
                 Config.checkpoint_path := VStr "/ckpt";
                 Config.targets := VList [AStr "onset"; AStr "/etc/pitch"];
                 Config.conditioning := VList [];
                 Config.log_dir := VStr "/logs";
                 Config.num_epochs := VInt 0;
                 Config.batch_size := VInt 4;
                 Config.learning_rate := VFloat "0.00025";
                 Config.warmup_steps := VInt 0;
                 Config.max_steps := VInt (-1);
                 Config.wandb_project := VNone;
                 Config.freeze_layers := VNone;
                 Config._job_id := Some "4242" |}
              "/d" [AStr "onset"; AStr "/etc/pitch"] valid_split 1%nat "/etc/pitch"
              eq_refl eq_refl eq_refl) as (paths & Hpaths & Habs & _).
  exists paths. split; [exact Hpaths|]. apply Habs. reflexivity.
Defined.

(** X5. [conditioning_paths] of a constructed [Config].  When
    [conditioning] was left out or given as [None] the result is the empty
    list, and the data root is not even looked at.  Otherwise, with a
    string data root, there is one path per conditioning name, in order,
    formed like the target paths. *)
Theorem X5_conditioning_paths
    (w : World) (kwargs : gmap string PyVal) (cfg : Config.t) (split : Split) :
  Config.new w kwargs = Ok cfg ->
  (kwargs !! "conditioning" = None \/ kwargs !! "conditioning" = Some VNone ->
   Config.conditioning_paths cfg split = Ok []) /\
  (forall (root : string) (cs : list Atom),
      kwargs !! "data_dir" = Some (VStr root) ->
      Config.conditioning cfg = VList cs ->
      Config.conditioning_paths cfg split =
        Ok (map (fun c => join_strs root [split_name split; py_str c +:+ ".h5"]) cs)).
Proof.
  intros Hnew. destruct (new_Ok _ _ _ Hnew) as (self & Hi & Hp).
  destruct (init_Ok _ _ _ Hi) as (_ & Hdd & _ & _ & _ & Hc & _).
  destruct (post_init_Ok _ _ _ Hp) as (Hdd' & _ & _ & _ & _ & Hc' & _).
  split.
  - intros Hnone. unfold Config.conditioning_paths. rewrite Hc', Hc.
    by destruct Hnone as [-> | ->].
  - intros root cs Hroot Hcs. unfold Config.conditioning_paths.
    rewrite Hroot in Hdd. injection Hdd as Hdd.
    rewrite Hcs, Hdd', <- Hdd. simpl.
    apply res_map_Ok. intros c _.
    apply (os_path_join_strs root [split_name split; py_str c +:+ ".h5"]).
Qed.

Lemma X5_witness :
  Config.new Demo.laptop Demo.with_conditioning = Ok Demo.conditioned_config /\
  Config.conditioning_paths Demo.conditioned_config test_split = Ok ["/d/test/key.h5"].
Proof.
  assert (Hnew : Config.new Demo.laptop Demo.with_conditioning = Ok Demo.conditioned_config)
    by (vm_compute; reflexivity).
  split; [exact Hnew|].
  apply (proj2 (X5_conditioning_paths _ _ _ test_split Hnew) "/d" [AStr "key"]).
  - vm_compute. reflexivity.
  - reflexivity.
Defined.

Section Datasets.

Context `{Collaborators}.

(** X6. With a string data root and a list of targets, [get_dataset]
    makes exactly one collaborator call: [HDF5Dataset] on the events file
    and the label files of the split, all joined onto the split directory
    that [train_dir], [valid_dir] or [test_dir] gives.  Whatever the call
    returns or raises is what [get_dataset] returns or raises; nothing is
    checked here. *)
Theorem X6_get_dataset_call
    (config : Config.t) (split : Split) (w : World) (root : string) (ts : list Atom) :
  Config.data_dir config = VStr root ->
  Config.targets config = VList ts ->
  exists dir : string,
    split_dir config split = Ok dir /\
    dir = join_strs root [split_name split] /\
    let events_path := join_strs dir ["events.h5"] in
    let label_paths := map (fun t => join_strs dir [py_str t +:+ ".h5"]) ts in
    Config.target_paths config split = Ok label_paths /\
    get_dataset config split w =
      (HDF5Dataset events_path label_paths,
       logged (EvHDF5Dataset events_path label_paths) w).
Proof.
  intros Hroot Hts. exists (join_strs root [split_name split]).
  pose proof (split_dir_of_str _ _ split Hroot) as Hdir.
  pose proof (target_paths_of_list _ _ _ split Hroot Hts) as Hpaths.
  split; [exact Hdir|]. split; [reflexivity|]. split; [exact Hpaths|].
  unfold get_dataset. rewrite Hdir, run_bind_lift_Ok.
  pose proof (os_path_join_strs (join_strs root [split_name split]) ["events.h5"]) as Hev.
  simpl map in Hev. rewrite Hev.
  rewrite run_bind_lift_Ok, Hpaths, run_bind_lift_Ok. apply call_eq.
Qed.

(** X7. [get_dataset] raises [TypeError] without calling [HDF5Dataset],
    and leaves the state as it was, when the data root is not a string,
    and when it is one but [targets] is a value that cannot be iterated
    ([None], a boolean, a number). *)
Theorem X7_get_dataset_type_errors (config : Config.t) (split : Split) (w : World) :
  (isinstance_str (Config.data_dir config) = false ->
   get_dataset config split w = (Raise TypeError, w)) /\
  (forall a : Atom,
      isinstance_str (Config.data_dir config) = true ->
      Config.targets config = VAtom a -> isinstance_str (VAtom a) = false ->
      get_dataset config split w = (Raise TypeError, w)).
Proof.
  split.
  - intros Hstr. unfold get_dataset.
    assert (Hdir : split_dir config split = Raise TypeError).
    { destruct split; unfold split_dir, Config.train_dir, Config.valid_dir, Config.test_dir;
        by destruct (Config.data_dir config) as [[| | | |]|]. }
    by rewrite Hdir.
  - intros a Hstr Ha Hna.
    destruct (Config.data_dir config) as [[| | | |root]|] eqn:Hroot; try discriminate.
    unfold get_dataset. rewrite (split_dir_of_str _ _ split Hroot), run_bind_lift_Ok.
    pose proof (os_path_join_strs (join_strs root [split_name split]) ["events.h5"]) as Hev.
    simpl map in Hev. rewrite Hev.
    rewrite run_bind_lift_Ok. unfold Config.target_paths. rewrite Ha.
    by destruct a.
Qed.

(** X8. Dataset construction looks at [data_dir] and [targets] only: two
    configurations that agree on these two fields give the same call and
    the same result, whatever their [conditioning], [checkpoint_path] and
    other fields.  In particular the conditioning files are never handed
    to [HDF5Dataset]. *)
Theorem X8_get_dataset_frame (c1 c2 : Config.t) (split : Split) (w : World) :
  Config.data_dir c1 = Config.data_dir c2 ->
  Config.targets c1 = Config.targets c2 ->
  get_dataset c1 split w = get_dataset c2 split w.
Proof.
  intros Hd Ht. unfold get_dataset, Config.target_paths.
  assert (Hdir : split_dir c1 split = split_dir c2 split).
  { destruct split; unfold split_dir, Config.train_dir, Config.valid_dir, Config.test_dir;
      by rewrite Hd. }
  by rewrite Hdir, Hd, Ht.
Qed.

End Datasets.

Lemma X6_witness :
  get_dataset (H := Demo.no_data) Demo.cluster_config valid_split Demo.cluster =
    (Raise (CollaboratorError "No such file or directory"),
     logged (EvHDF5Dataset "/d/valid/events.h5" ["/d/valid/onset.h5"; "/d/valid/pitch.h5"])
       Demo.cluster).
Proof.
  destruct (X6_get_dataset_call (H := Demo.no_data) Demo.cluster_config valid_split
              Demo.cluster "/d" [AStr "onset"; AStr "pitch"] eq_refl eq_refl)
    as (dir & _ & -> & _ & Hcall).
  exact Hcall.
Defined.

Lemma X7_witness :
  get_dataset (H := Demo.collaborators)
    {| Config.data_dir := VStr "/d";
       Config.output_dir_base := VStr "/out";
       Config.checkpoint_path := VStr "/ckpt";
       Config.targets := VInt 3;
       Config.conditioning := VList [];
       Config.log_dir := VStr "/logs";
       Config.num_epochs := VInt 0;
       Config.batch_size := VInt 4;
       Config.learning_rate := VFloat "0.00025";
       Config.warmup_steps := VInt 0;
       Config.max_steps := VInt (-1);
       Config.wandb_project := VNone;
       Config.freeze_layers := VNone;
       Config._job_id := Some "4242" |} train_split Demo.laptop
  = (Raise TypeError, Demo.laptop).
Proof.
  apply (proj2 (X7_get_dataset_type_errors (H := Demo.collaborators) _ train_split
                  Demo.laptop) (AInt 3)); reflexivity.
Defined.

Lemma X8_witness :
  get_dataset (H := Demo.collaborators) Demo.conditioned_config train_split Demo.laptop =
  get_dataset (H := Demo.collaborators) Demo.one_target_config train_split Demo.laptop.
Proof.
  apply (X8_get_dataset_frame (H := Demo.collaborators)); reflexivity.
Defined.

(** ** The training arguments, further *)

Lemma defaults_of_output_dir (config : Config.t) (defaults : gmap string PyVal) :
  default_training_kwargs config = Ok defaults ->
  exists output_dir : string,
    Config.output_dir config = Ok output_dir /\
    defaults =
      list_to_map
        [ ("output_dir", VStr output_dir);
          ("num_train_epochs", Config.num_epochs config);
          ("per_device_train_batch_size", Config.batch_size config);
          ("per_device_eval_batch_size", Config.batch_size config);
          ("warmup_steps", Config.warmup_steps config);
          ("logging_dir", Config.log_dir config);
          ("max_steps", Config.max_steps config);
          ("push_to_hub", VBool false);
          ("eval_on_start", VBool true);
          ("eval_strategy", VStr "steps");
          ("metric_for_best_model", VStr "accuracy");
          ("greater_is_better", VBool true);
          ("save_total_limit", VInt 2);
          ("load_best_model_at_end", VBool true) ].
Proof.
  unfold default_training_kwargs. intros Hd.
  destruct (Config.output_dir config) as [output_dir|e]; [|discriminate].
  exists output_dir. split; [reflexivity|]. by injection Hd as <-.
Qed.

(** X9. The keyword arguments given to [TrainingArguments] are built
    exactly when [output_dir] can be computed.  Their keys are the
    pass-through keys, the fourteen default keys and [report_to].  Each of
    the fourteen default keys that the command line does not pass has its
    default value: the derived output directory, the epoch count, the one
    batch size for training and for evaluation, the warmup steps, the log
    directory, the step limit, and the seven constants of the script. *)
Theorem X9_bundle_keys_and_defaults
    (config : Config.t) (training_kwargs : gmap string PyVal) :
  ((exists bundle, final_training_kwargs config training_kwargs = Ok bundle) <->
   (exists output_dir, Config.output_dir config = Ok output_dir)) /\
  (forall bundle : gmap string PyVal,
      final_training_kwargs config training_kwargs = Ok bundle ->
      exists output_dir : string,
        Config.output_dir config = Ok output_dir /\
        dom bundle =
          dom training_kwargs ∪
          list_to_set
            [ "output_dir"; "num_train_epochs"; "per_device_train_batch_size";
              "per_device_eval_batch_size"; "warmup_steps"; "logging_dir"; "max_steps";
              "push_to_hub"; "eval_on_start"; "eval_strategy"; "metric_for_best_model";
              "greater_is_better"; "save_total_limit"; "load_best_model_at_end";
              "report_to" ] /\
        Forall (fun kv : string * PyVal =>
                  training_kwargs !! kv.1 = None -> bundle !! kv.1 = Some kv.2)
          [ ("output_dir", VStr output_dir);
            ("num_train_epochs", Config.num_epochs config);
            ("per_device_train_batch_size", Config.batch_size config);
            ("per_device_eval_batch_size", Config.batch_size config);
            ("warmup_steps", Config.warmup_steps config);
            ("logging_dir", Config.log_dir config);
            ("max_steps", Config.max_steps config);
            ("push_to_hub", VBool false);
            ("eval_on_start", VBool true);
            ("eval_strategy", VStr "steps");
            ("metric_for_best_model", VStr "accuracy");
            ("greater_is_better", VBool true);
            ("save_total_limit", VInt 2);
            ("load_best_model_at_end", VBool true) ]).
Proof.
  split.
  - unfold final_training_kwargs, default_training_kwargs.
    destruct (Config.output_dir config) as [output_dir|e]; simpl.
    + split; [eauto|]. intros _. destruct (py_bool (Config.wandb_project config)); eauto.
    + split; intros [x Hx]; discriminate.
  - intros bundle Hb. unfold final_training_kwargs, default_training_kwargs in Hb.
    destruct (Config.output_dir config) as [output_dir|e]; [|discriminate].
    exists output_dir. split; [reflexivity|]. simpl in Hb.
    assert (Hbundle : bundle =
                      <["report_to" := if py_bool (Config.wandb_project config)
                                       then VStr "wandb" else VNone]>
                        (training_kwargs ∪
                         list_to_map
                           [ ("output_dir", VStr output_dir);
                             ("num_train_epochs", Config.num_epochs config);
                             ("per_device_train_batch_size", Config.batch_size config);
                             ("per_device_eval_batch_size", Config.batch_size config);
                             ("warmup_steps", Config.warmup_steps config);
                             ("logging_dir", Config.log_dir config);
                             ("max_steps", Config.max_steps config);
                             ("push_to_hub", VBool false);
                             ("eval_on_start", VBool true);
                             ("eval_strategy", VStr "steps");
                             ("metric_for_best_model", VStr "accuracy");
                             ("greater_is_better", VBool true);
                             ("save_total_limit", VInt 2);
                             ("load_best_model_at_end", VBool true) ])).
    { destruct (py_bool (Config.wandb_project config)); by injection Hb as <-. }
    clear Hb. subst bundle. split.
    { rewrite dom_insert_L, dom_union_L, dom_list_to_map_L. simpl.
      apply set_eq. intros k. set_unfold. tauto. }
    repeat (apply Forall_cons; split;
            [ simpl; intros Hn; rewrite lookup_insert_ne by discriminate;
              rewrite lookup_union_r by exact Hn; reflexivity | ]).
    apply Forall_nil. exact I.
Qed.

(** X10. What becomes of the dataclass fields in the training arguments.
    A key of the command line that is a field of [Config] is never passed
    through.  So [warmup_steps] and [max_steps] in the training arguments
    are always the values held by the [Config], and no other field name is
    a key of the training arguments: [learning_rate], [batch_size] and
    [num_epochs] in particular never reach [TrainingArguments] under their
    own names. *)
Theorem X10_fields_in_training_arguments
    (conf : gmap string PyVal) (w w' : World)
    (config : Config.t) (training_kwargs bundle : gmap string PyVal) (k : string) :
  get_config_and_training_kwargs conf w = (Ok (config, training_kwargs), w') ->
  final_training_kwargs config training_kwargs = Ok bundle ->
  k ∈ config_fields ->
  bundle !! k =
    if decide (k = "warmup_steps") then Some (Config.warmup_steps config)
    else if decide (k = "max_steps") then Some (Config.max_steps config)
    else None.
Proof.
  rewrite get_config_and_training_kwargs_eq. intros Hg Hb Hk.
  destruct (Config.new w (config_kwargs_of conf)) as [config'|e]; [|discriminate].
  injection Hg as -> <- _.
  destruct (final_training_kwargs_Ok _ _ _ Hb) as (defaults & Hd & ->).
  destruct (defaults_of_output_dir _ _ Hd) as (output_dir & _ & ->).
  assert (Hpass : training_kwargs_of conf !! k = None).
  { rewrite training_kwargs_lookup. by case_bool_decide. }
  unfold config_fields, Config.__dataclass_fields__ in Hk.
  rewrite elem_of_list_to_set in Hk.
  repeat (apply elem_of_cons in Hk; destruct Hk as [->|Hk]);
    [..|by apply elem_of_nil in Hk];
    (rewrite lookup_insert_ne by discriminate);
    unfold dict_or; (rewrite lookup_union_r by exact Hpass); reflexivity.
Qed.

Lemma X10_witness :
  exists bundle : gmap string PyVal,
    final_training_kwargs Demo.one_target_config
      (training_kwargs_of (<["learning_rate" := VFloat "1e-05"]> Demo.one_target)) = Ok bundle /\
    bundle !! "learning_rate" = None.
Proof.
  assert (Hfinal : exists bundle,
             final_training_kwargs Demo.one_target_config
               (training_kwargs_of (<["learning_rate" := VFloat "1e-05"]> Demo.one_target))
             = Ok bundle)
    by (eexists; vm_compute; reflexivity).
  destruct Hfinal as [bundle Hfinal]. exists bundle. split; [exact Hfinal|].
  apply (X10_fields_in_training_arguments
           (<["learning_rate" := VFloat "1e-05"]> Demo.one_target) Demo.laptop Demo.laptop
           {| Config.data_dir := VStr "/d";
              Config.output_dir_base := VStr "/out";
              Config.checkpoint_path := VStr "/ckpt";
              Config.targets := VList [AStr "onset"];
              Config.conditioning := VList [];
              Config.log_dir := VStr "/home/u/tmp/musicbert_hf_logs";
              Config.num_epochs := VInt 0;
              Config.batch_size := VInt 4;
              Config.learning_rate := VFloat "1e-05";
              Config.warmup_steps := VInt 0;
              Config.max_steps := VInt (-1);
              Config.wandb_project := VNone;
              Config.freeze_layers := VNone;
              Config._job_id := Some "1730736000.5" |}
           (training_kwargs_of (<["learning_rate" := VFloat "1e-05"]> Demo.one_target))
           bundle "learning_rate").
  - vm_compute. reflexivity.
  - exact Hfinal.
  - apply (bool_decide_eq_true_1 ("learning_rate" ∈ config_fields)). vm_compute. reflexivity.
Defined.

(** ** The telemetry step, further *)

(** X11. The telemetry step touches [WANDB_PROJECT] and nothing else: the
    other environment variables, the clock and the record of collaborator
    calls are as before, whether it completes or raises.  It raises
    [TypeError] when [wandb_project] is truthy but no string, and
    [ValueError] when it is a string with a NUL character; in both cases
    the environment is left as it was, a stale [WANDB_PROJECT] included. *)
Theorem X11_telemetry_step_frame_and_errors (config : Config.t) (w : World) :
  (forall r w', setup_wandb config w = (r, w') ->
                trace w' = trace w /\ clock w' = clock w /\
                default_log_dir w' = default_log_dir w /\
                forall k, k <> "WANDB_PROJECT" -> environ w' !! k = environ w !! k) /\
  (py_bool (Config.wandb_project config) = true ->
   isinstance_str (Config.wandb_project config) = false ->
   setup_wandb config w = (Raise TypeError, w)) /\
  (forall name, Config.wandb_project config = VStr name -> has_nul name = true ->
                setup_wandb config w = (Raise (ValueError "embedded null byte"), w)).
Proof.
  split; [|split].
  - intros r w'. unfold setup_wandb, environ_setitem, environ_pop.
    destruct (py_bool (Config.wandb_project config)).
    + destruct (Config.wandb_project config) as [[| | | |name]|items];
        try (intros Hs; injection Hs as <- <-; by repeat split).
      destruct (has_nul name); intros Hs; injection Hs as <- <-; repeat split.
      intros k Hk. simpl. by rewrite lookup_insert_ne.
    + intros Hs. injection Hs as <- <-. repeat split.
      intros k Hk. simpl. by rewrite lookup_delete_ne.
  - intros Htruthy Hstr. unfold setup_wandb, environ_setitem. rewrite Htruthy.
    by destruct (Config.wandb_project config) as [[| | | |name]|items].
  - intros name Hname Hnul. unfold setup_wandb, environ_setitem.
    rewrite Hname, Hnul. simpl.
    destruct name as [|c name]; [discriminate Hnul|reflexivity].
Qed.

(** ** The dispatch, further *)

Section DispatchEdges.

Context `{Collaborators}.


End DispatchEdges.


(** ** The order of the collaborator calls *)

Lemma extend_nil (w : World) : extend w [] = w.
Proof. destruct w. unfold extend. simpl. by rewrite app_nil_r. Qed.

Lemma extend_extend (w : World) (evs1 evs2 : list Event) :
  extend (extend w evs1) evs2 = extend w (evs1 ++ evs2).
Proof. unfold extend. simpl. by rewrite app_assoc. Qed.

Lemma staged_lift {A : Type} (r : Res A) : staged (lift r) [].
Proof.
  intros w. exists r, []. rewrite extend_nil.
  split; [reflexivity|]. split; [done|]. done.
Qed.

Lemma staged_raise {A : Type} (e : PyExc) (stages : list nat) :
  staged (raise (A := A) e) stages.
Proof.
  intros w. exists (Raise e), []. rewrite extend_nil.
  split; [reflexivity|]. split; [apply prefix_nil|]. discriminate.
Qed.

Lemma staged_call {A : Type} (ev : Event) (r : Res A) : staged (call ev r) [stage ev].
Proof.
  intros w. exists r, [ev]. split; [apply call_eq|]. split; done.
Qed.

Lemma staged_bind {A B : Type} (c : Run A) (k : A -> Run B) (s1 s2 : list nat) :
  staged c s1 -> (forall a, staged (k a) s2) -> staged (c ≫= k) (s1 ++ s2).
Proof.
  intros Hc Hk w. destruct (Hc w) as (r & evs & Hcw & Hpre & Hall).
  unfold mbind, Run_bind, run_bind. rewrite Hcw. destruct r as [a|e].
  - destruct (Hk a (extend w evs)) as (r2 & evs2 & Hkw & Hpre2 & Hall2).
    exists r2, (evs ++ evs2)%list. rewrite Hkw, extend_extend.
    split; [reflexivity|]. rewrite fmap_app, (Hall a eq_refl). split.
    + by apply prefix_app.
    + intros b Hb. by rewrite (Hall2 b Hb).
  - exists (Raise e), evs. split; [reflexivity|]. split.
    + by apply prefix_app_r.
    + discriminate.
Qed.

Section CallOrder.

Context `{Collaborators}.

Lemma staged_get_dataset (config : Config.t) (split : Split) :
  staged (get_dataset config split) [0%nat].
Proof.
  unfold get_dataset.
  apply (staged_bind _ _ [] [0%nat]); [apply staged_lift|]. intros dir.
  apply (staged_bind _ _ [] [0%nat]); [apply staged_lift|]. intros events_path.
  apply (staged_bind _ _ [] [0%nat]); [apply staged_lift|]. intros label_paths.
  apply (staged_call (EvHDF5Dataset events_path label_paths)).
Qed.

Lemma staged_select_model (config : Config.t) (train_dataset : Dataset) :
  staged (select_model config train_dataset) [1%nat].
Proof.
  unfold select_model.
  destruct (py_bool (Config.checkpoint_path config)); [|apply staged_raise].
  apply (staged_bind _ _ [] [1%nat]); [apply staged_lift|]. intros multitask.
  destruct multitask, (py_bool (Config.conditioning config)); try apply staged_raise.
  - apply (staged_call (EvLoadMultitask _ _ _)).
  - apply (staged_bind _ _ [] [1%nat]); [apply staged_lift|]. intros num_labels.
    apply (staged_call (EvLoadSingle _ _ _)).
Qed.

Lemma staged_after_datasets
    (config : Config.t) (training_kwargs : gmap string PyVal)
    (train_dataset valid_dataset : Dataset) :
  staged (after_datasets config training_kwargs train_dataset valid_dataset)
    [1; 2; 3; 4; 5]%nat.
Proof.
  unfold after_datasets.
  apply (staged_bind _ _ [1%nat] [2; 3; 4; 5]%nat); [apply staged_select_model|].
  intros model.
  apply (staged_bind _ _ [2%nat] [3; 4; 5]%nat); [apply (staged_call (EvFreezeLayers _))|].
  intros model'.
  apply (staged_bind _ _ [] [3; 4; 5]%nat); [apply staged_lift|]. intros bundle.
  apply (staged_bind _ _ [3%nat] [4; 5]%nat);
    [apply (staged_call (EvTrainingArguments _))|].
  intros training_args.
  apply (staged_bind _ _ [] [4; 5]%nat); [apply staged_lift|]. intros compute_metrics_fn.
  apply (staged_bind _ _ [] [4; 5]%nat); [apply staged_lift|]. intros multitask.
  apply (staged_bind _ _ [4%nat] [5%nat]); [apply (staged_call (EvTrainer _ _))|].
  intros trainer. apply (staged_call EvTrain).
Qed.

Lemma staged_after_setup (config : Config.t) (training_kwargs : gmap string PyVal) :
  staged (after_setup config training_kwargs) script_stages.
Proof.
  unfold after_setup.
  apply (staged_bind _ _ [0%nat] [0; 1; 2; 3; 4; 5]%nat); [apply staged_get_dataset|].
  intros train_dataset.
  apply (staged_bind _ _ [0%nat] [1; 2; 3; 4; 5]%nat); [apply staged_get_dataset|].
  intros valid_dataset. apply staged_after_datasets.
Qed.

(** [get_dataset] either raises before its call, or makes the call of its
    split and hands on what the call gives. *)
Lemma get_dataset_call_cases (config : Config.t) (split : Split) (w : World) :
  (exists e, get_dataset config split w = (Raise e, w)) \/
  (exists ev r, dataset_call config split ev /\
                get_dataset config split w = (r, logged ev w)).
Proof.
  unfold get_dataset, dataset_call.
  destruct (split_dir config split) as [dir|e] eqn:Hdir; [|left; by exists e].
  rewrite run_bind_lift_Ok.
  pose proof (os_path_join_strs dir ["events.h5"]) as Hev. simpl map in Hev. rewrite Hev.
  rewrite run_bind_lift_Ok.
  destruct (Config.target_paths config split) as [label_paths|e] eqn:Hpaths;
    [|left; by exists e].
  rewrite run_bind_lift_Ok, call_eq. right.
  exists (EvHDF5Dataset (join_strs dir ["events.h5"]) label_paths),
    (HDF5Dataset (join_strs dir ["events.h5"]) label_paths).
  split; [|reflexivity]. by exists dir, label_paths.
Qed.

(** The script is the constructor, the telemetry step, and the rest. *)
Lemma main_eq (conf : gmap string PyVal) (w : World) :
  main conf w =
    match Config.new w (config_kwargs_of conf) with
    | Ok config =>
        match setup_wandb config w with
        | (Ok _, w1) => after_setup config (training_kwargs_of conf) w1
        | (Raise e, w1) => (Raise e, w1)
        end
    | Raise e => (Raise e, w)
    end.
Proof.
  unfold main. unfold mbind at 1, Run_bind, run_bind.
  rewrite get_config_and_training_kwargs_eq.
  destruct (Config.new w (config_kwargs_of conf)) as [config|e]; [|reflexivity].
  unfold mbind at 1, Run_bind, run_bind.
  destruct (setup_wandb config w) as [[[]|e] w1]; reflexivity.
Qed.

Lemma setup_wandb_frame (config : Config.t) (w w' : World) (r : Res unit) :
  setup_wandb config w = (r, w') ->
  trace w' = trace w /\ clock w' = clock w /\
  default_log_dir w' = default_log_dir w /\
  forall k, k <> "WANDB_PROJECT" -> environ w' !! k = environ w !! k.
Proof.
  unfold setup_wandb, environ_setitem, environ_pop.
  destruct (py_bool (Config.wandb_project config)).
  - destruct (Config.wandb_project config) as [[| | | |name]|items];
      try (intros Hs; injection Hs as <- <-; by repeat split).
    destruct (has_nul name); intros Hs; injection Hs as <- <-; repeat split.
    intros k Hk. simpl. by rewrite lookup_insert_ne.
  - intros Hs. injection Hs as <- <-. repeat split.
    intros k Hk. simpl. by rewrite lookup_delete_ne.
Qed.

(** X13. In every run of the script, whatever the command line and
    however the collaborators behave, the collaborator calls come in one
    fixed order: the train dataset, the valid dataset, one model loader,
    [freeze_layers], [TrainingArguments], [Trainer], [train].  A run that
    ends with an exception has made an initial part of this sequence; a
    run that returns has made all seven calls, once each.  The first call
    is the [HDF5Dataset] call on the files of the train split and the
    second is the one on the files of the valid split. *)
Theorem X13_order_of_collaborator_calls
    (conf : gmap string PyVal) (w w' : World) (r : Res unit) :
  main conf w = (r, w') ->
  exists evs : list Event,
    trace w' = (trace w ++ evs)%list /\
    stage <$> evs `prefix_of` script_stages /\
    (r = Ok tt -> stage <$> evs = script_stages) /\
    (forall ev, evs !! 0%nat = Some ev ->
                exists config, Config.new w (config_kwargs_of conf) = Ok config /\
                               dataset_call config train_split ev) /\
    (forall ev, evs !! 1%nat = Some ev ->
                exists config, Config.new w (config_kwargs_of conf) = Ok config /\
                               dataset_call config valid_split ev).
Proof.
  rewrite main_eq. intros Hmain.
  assert (Hnone : forall (w0 : World) (e : PyExc),
             (r, w') = (Raise e, w0) -> trace w0 = trace w ->
             exists evs : list Event,
               trace w' = (trace w ++ evs)%list /\
               stage <$> evs `prefix_of` script_stages /\
               (r = Ok tt -> stage <$> evs = script_stages) /\
               (forall ev, evs !! 0%nat = Some ev ->
                           exists config, Config.new w (config_kwargs_of conf) = Ok config /\
                                          dataset_call config train_split ev) /\
               (forall ev, evs !! 1%nat = Some ev ->
                           exists config, Config.new w (config_kwargs_of conf) = Ok config /\
                                          dataset_call config valid_split ev)).
  { intros w0 e Heq Htr. injection Heq as -> ->. exists []. rewrite app_nil_r.
    split; [exact Htr|]. split; [apply prefix_nil|].
    split; [discriminate|]. split; intros ev Hev; discriminate. }
  destruct (Config.new w (config_kwargs_of conf)) as [config|e] eqn:Hnew.
  2:{ symmetry in Hmain. by eapply Hnone. }
  destruct (setup_wandb config w) as [[[]|e] w1] eqn:Hsetup.
  2:{ symmetry in Hmain. eapply Hnone; [exact Hmain|].
      by destruct (setup_wandb_frame _ _ _ _ Hsetup) as (-> & _). }
  destruct (setup_wandb_frame _ _ _ _ Hsetup) as (Htr & _).
  unfold after_setup in Hmain. unfold mbind at 1, Run_bind, run_bind in Hmain.
  destruct (get_dataset_call_cases config train_split w1) as [[e He]|(ev1 & r1 & Hc1 & He)];
    rewrite He in Hmain.
  { symmetry in Hmain. by eapply Hnone. }
  destruct r1 as [train_dataset|e].
  2:{ injection Hmain as <- <-. exists [ev1]. split; [simpl; by rewrite Htr|].
      destruct Hc1 as (dir & ps & Hd & Hp & ->).
      split; [by exists [0; 1; 2; 3; 4; 5]%nat|]. split; [discriminate|]. split.
      - intros ev Hev. injection Hev as <-. exists config. split; [reflexivity|].
        by exists dir, ps.
      - intros ev Hev. discriminate. }
  unfold mbind at 1, Run_bind, run_bind in Hmain.
  destruct (get_dataset_call_cases config valid_split (logged ev1 w1))
    as [[e He2]|(ev2 & r2 & Hc2 & He2)]; rewrite He2 in Hmain.
  { injection Hmain as <- <-. exists [ev1]. split; [simpl; by rewrite Htr|].
    destruct Hc1 as (dir & ps & Hd & Hp & ->).
    split; [by exists [0; 1; 2; 3; 4; 5]%nat|]. split; [discriminate|]. split.
    - intros ev Hev. injection Hev as <-. exists config. split; [reflexivity|].
      by exists dir, ps.
    - intros ev Hev. discriminate. }
  assert (Hstage1 : stage ev1 = 0%nat) by (by destruct Hc1 as (? & ? & _ & _ & ->)).
  assert (Hstage2 : stage ev2 = 0%nat) by (by destruct Hc2 as (? & ? & _ & _ & ->)).
  destruct r2 as [valid_dataset|e].
  2:{ injection Hmain as <- <-. exists [ev1; ev2].
      split; [simpl; by rewrite Htr, <- app_assoc|].
      split; [simpl; rewrite Hstage1, Hstage2; by exists [1; 2; 3; 4; 5]%nat|].
      split; [discriminate|]. split.
      - intros ev Hev. injection Hev as <-. by exists config.
      - intros ev Hev. injection Hev as <-. by exists config. }
  destruct (staged_after_datasets config (training_kwargs_of conf) train_dataset
              valid_dataset (logged ev2 (logged ev1 w1)))
    as (r' & evs & Hrun & Hpre & Hall).
  rewrite Hrun in Hmain. injection Hmain as <- <-. exists (ev1 :: ev2 :: evs).
  split; [simpl; by rewrite Htr, <- !app_assoc|].
  split; [rewrite !fmap_cons, Hstage1, Hstage2; by do 2 apply prefix_cons|].
  split.
  { intros Hok. by rewrite !fmap_cons, Hstage1, Hstage2, (Hall tt Hok). }
  split.
  - intros ev Hev. injection Hev as <-. by exists config.
  - intros ev Hev. injection Hev as <-. by exists config.
Qed.

(** X15. Telemetry is configured before any collaborator is called: if
    a run has called a collaborator at all, then the [Config] was
    constructed and the telemetry step completed first, with no
    collaborator call made yet; that step left [WANDB_PROJECT] equal to
    the project name, or absent when no project is configured; and every
    call of the run was made by the rest of the script, started in the
    state the step left. *)
Theorem X15_telemetry_before_collaborators
    (conf : gmap string PyVal) (w w' : World) (r : Res unit) :
  main conf w = (r, w') ->
  trace w' <> trace w ->
  exists (config : Config.t) (w1 : World),
    Config.new w (config_kwargs_of conf) = Ok config /\
    setup_wandb config w = (Ok tt, w1) /\
    trace w1 = trace w /\
    environ w1 !! "WANDB_PROJECT" =
      match Config.wandb_project config with
      | VStr name => if py_bool (VStr name) then Some name else None
      | _ => None
      end /\
    after_setup config (training_kwargs_of conf) w1 = (r, w').
Proof.
  rewrite main_eq. intros Hmain Hcalled.
  destruct (Config.new w (config_kwargs_of conf)) as [config|e].
  2:{ injection Hmain as <- <-. contradiction. }
  destruct (setup_wandb_cases config w) as [[e He]|(w1 & He & Htr & Henv)];
    rewrite He in Hmain.
  { injection Hmain as <- <-. contradiction. }
  exists config, w1. by repeat split.
Qed.

(** X16. An [output_dir_base] that is no string is noticed late.  The
    constructor accepts it; both datasets are built, the model is loaded
    and its layers are frozen; only then, when the training arguments are
    assembled, does the run end with [TypeError], and [TrainingArguments]
    is never called. *)
Theorem X16_output_dir_base_checked_late
    (conf : gmap string PyVal) (w w1 w2 w3 w4 : World) (config : Config.t)
    (train_dataset valid_dataset : Dataset) (model model' : Model) :
  Config.new w (config_kwargs_of conf) = Ok config ->
  isinstance_str (Config.output_dir_base config) = false ->
  setup_wandb config w = (Ok tt, w1) ->
  get_dataset config train_split w1 = (Ok train_dataset, w2) ->
  get_dataset config valid_split w2 = (Ok valid_dataset, w3) ->
  select_model config train_dataset w3 = (Ok model, w4) ->
  freeze_layers model (Config.freeze_layers config) = Ok model' ->
  main conf w =
    (Raise TypeError, logged (EvFreezeLayers (Config.freeze_layers config)) w4).
Proof.
  intros Hnew Hbase Hsetup Htrain Hvalid Hmodel Hfreeze.
  rewrite (main_until_dispatch _ _ _ _ _ _ _ _ Hnew Hsetup Htrain Hvalid), Hmodel.
  unfold mbind at 1, Run_bind, run_bind. rewrite call_eq, Hfreeze.
  assert (Hfinal : final_training_kwargs config (training_kwargs_of conf) = Raise TypeError).
  { unfold final_training_kwargs, default_training_kwargs, Config.output_dir.
    destruct (new_Ok _ _ _ Hnew) as (self & _ & Hp).
    destruct (post_init_Ok _ _ _ Hp) as (_ & _ & _ & _ & _ & _ & ->).
    by destruct (Config.output_dir_base config) as [[| | | |]|]. }
  by rewrite Hfinal.
Qed.

End CallOrder.

Lemma X13_witness :
  exists (w' : World) (evs : list Event),
    main (H := Demo.collaborators) Demo.two_targets Demo.cluster = (Ok tt, w') /\
    trace w' = (trace Demo.cluster ++ evs)%list /\
    stage <$> evs = [0; 0; 1; 2; 3; 4; 5]%nat /\
    (forall ev, evs !! 0%nat = Some ev ->
                exists config,
                  Config.new Demo.cluster (config_kwargs_of Demo.two_targets) = Ok config /\
                  dataset_call config train_split ev) /\
    (forall ev, evs !! 1%nat = Some ev ->
                exists config,
                  Config.new Demo.cluster (config_kwargs_of Demo.two_targets) = Ok config /\
                  dataset_call config valid_split ev).
Proof.
  assert (Hrun : exists w',
             main (H := Demo.collaborators) Demo.two_targets Demo.cluster = (Ok tt, w'))
    by (eexists; vm_compute; reflexivity).
  destruct Hrun as [w' Hrun].
  destruct (X13_order_of_collaborator_calls (H := Demo.collaborators) _ _ _ _ Hrun)
    as (evs & Htrace & _ & Hall & Hfirst & Hsecond).
  exists w', evs. split; [exact Hrun|]. split; [exact Htrace|].
  split; [exact (Hall eq_refl)|]. split; [exact Hfirst|exact Hsecond].
Defined.

Lemma X15_witness :
  exists (config : Config.t) (w1 : World),
    Config.new Demo.laptop (config_kwargs_of Demo.no_checkpoint) = Ok config /\
    setup_wandb config Demo.laptop = (Ok tt, w1) /\
    trace w1 = trace Demo.laptop /\
    environ w1 !! "WANDB_PROJECT" =
      match Config.wandb_project config with
      | VStr name => if py_bool (VStr name) then Some name else None
      | _ => None
      end /\
    after_setup (H := Demo.collaborators) config (training_kwargs_of Demo.no_checkpoint) w1 =
      (Raise (ValueError "checkpoint_path must be provided"), Demo.laptop_with_datasets).
Proof.
  apply (X15_telemetry_before_collaborators (H := Demo.collaborators)
           Demo.no_checkpoint Demo.laptop Demo.laptop_with_datasets
           (Raise (ValueError "checkpoint_path must be provided"))).
  - vm_compute. reflexivity.
  - discriminate.
Defined.

Lemma X16_witness :
  exists w' : World,
    main (H := Demo.collaborators) (<["output_dir_base" := VInt 2024]> Demo.one_target)
      Demo.laptop = (Raise TypeError, w') /\
    stage <$> trace w' = [0; 0; 1; 2]%nat.
Proof.
  eexists. split.
  - eapply (X16_output_dir_base_checked_late (H := Demo.collaborators));
      vm_compute; reflexivity.
  - vm_compute. reflexivity.
Defined.
